(** * Astra team chat: the UI state logic of [MainContainer] and [GroupChat]

  A shallow embedding of the state transitions coded in
  [src/components/MainContainer.tsx] and in the [GroupChat] component:
  React state cells become record fields, event handlers become small
  programs that issue setter calls and collaborator calls in program
  order, and an [await] on a collaborator is a node whose continuation
  receives the outcome (resolved or rejected) of the promise. *)

From Stdlib Require Import ZArith NArith List String Ascii Bool Lia.
From stdpp Require Import base option list gmap.
Import ListNotations.

Local Open Scope list_scope.

(* ===================================================================== *)
(** ** JavaScript strings and the few primitives the components use *)
(* ===================================================================== *)

Module JS.

(** A JavaScript string is a sequence of UTF-16 code units; [length],
    [substring] and [trim] all work on code units. *)
Abbreviation jsstring := (list N).

(** A literal of the source, written as a Rocq string of ASCII characters. *)
Definition lit (s : string) : jsstring :=
  map N_of_ascii (list_ascii_of_string s).

(** ECMAScript [WhiteSpace] and [LineTerminator] code points, the set
    that [String.prototype.trim] strips. *)
Definition isWhiteSpace (c : N) : bool :=
  ((9 <=? c) && (c <=? 13) || (c =? 32) || (c =? 160) || (c =? 5760)
   || (8192 <=? c) && (c <=? 8202) || (c =? 8232) || (c =? 8233)
   || (c =? 8239) || (c =? 8287) || (c =? 12288) || (c =? 65279))%N.

Fixpoint dropWhile (p : N -> bool) (s : jsstring) : jsstring :=
  match s with
  | [] => []
  | c :: s' => if p c then dropWhile p s' else s
  end.

Definition trimStart (s : jsstring) : jsstring := dropWhile isWhiteSpace s.
Definition trimEnd (s : jsstring) : jsstring :=
  rev (dropWhile isWhiteSpace (rev s)).
Definition trim (s : jsstring) : jsstring := trimEnd (trimStart s).

(** [s.substring(start, end)] for non-negative integer arguments: both
    are clamped to the length and swapped when out of order. *)
Definition substring (s : jsstring) (i j : nat) : jsstring :=
  let a := Nat.min i (length s) in
  let b := Nat.min j (length s) in
  firstn (Nat.max a b - Nat.min a b) (skipn (Nat.min a b) s).

(** Truthiness of a string value: every string but the empty one. *)
Definition truthy (s : jsstring) : bool :=
  match s with [] => false | _ :: _ => true end.

(** Truthiness of a [string | null | undefined] value. *)
Definition truthyOpt (o : option jsstring) : bool :=
  match o with Some s => truthy s | None => false end.

(** Truthiness of an [object | null] value. *)
Definition truthyObj {A : Type} (o : option A) : bool :=
  match o with Some _ => true | None => false end.

(** Strict equality [===] on strings. *)
Definition eqb (a b : jsstring) : bool := bool_decide (a = b).

(** A query or draft is blank when it has only white space. *)
Definition blank (s : jsstring) : bool := forallb isWhiteSpace s.

End JS.

Import JS.

(* ===================================================================== *)
(** ** [MainContainer]: chat mode and sidebar *)
(* ===================================================================== *)

Module MainContainer.

(** The component compares [chatMode] with ['reports'], ['private'] and
    anything else (the team view). *)
Inductive ChatMode := reports | private | team.

#[global] Instance ChatMode_eq_dec : EqDecision ChatMode.
Proof. solve_decision. Defined.

Record State := mkState {
  sidebarOpen : bool;
  chatMode : ChatMode;
  conversationToLoad : option jsstring;
  shouldStartNewChat : bool;
  showTeamMenu : bool
}.

(** [useState] initial values. *)
Definition initial : State :=
  mkState false reports None false false.

Definition setSidebarOpen (b : bool) (st : State) : State :=
  mkState b (chatMode st) (conversationToLoad st)
          (shouldStartNewChat st) (showTeamMenu st).

Definition setChatMode (m : ChatMode) (st : State) : State :=
  mkState (sidebarOpen st) m (conversationToLoad st)
          (shouldStartNewChat st) (showTeamMenu st).

Definition setConversationToLoad (c : option jsstring) (st : State) : State :=
  mkState (sidebarOpen st) (chatMode st) c
          (shouldStartNewChat st) (showTeamMenu st).

Definition setShouldStartNewChat (b : bool) (st : State) : State :=
  mkState (sidebarOpen st) (chatMode st) (conversationToLoad st)
          b (showTeamMenu st).

Definition setShowTeamMenu (b : bool) (st : State) : State :=
  mkState (sidebarOpen st) (chatMode st) (conversationToLoad st)
          (shouldStartNewChat st) b.

(** The body of the effect registered with dependency list [[chatMode]]:
    [if (chatMode === 'private') setSidebarOpen(false)]. *)
Definition chatModeEffect (st : State) : State :=
  match chatMode st with
  | private => setSidebarOpen false st
  | _ => st
  end.

(** One commit of the component after a handler turned [old] into [new]:
    the effect runs when its dependency [chatMode] changed. *)
Definition commit (old new : State) : State :=
  if decide (chatMode old = chatMode new) then new else chatModeEffect new.

(** [ChatModeToggle] calls [onModeChange = setChatMode]. *)
Definition onModeChange (m : ChatMode) (st : State) : State :=
  commit st (setChatMode m st).

Definition handleLoadConversation (id : jsstring) (st : State) : State :=
  commit st (setSidebarOpen false (setConversationToLoad (Some id) st)).

Definition handleStartNewConversation (st : State) : State :=
  commit st (setSidebarOpen false (setShouldStartNewChat true st)).

Definition handleSwitchToPrivateChat (id : jsstring) (st : State) : State :=
  commit st (setConversationToLoad (Some id) (setChatMode private st)).

Definition handleToggleTeamMenu (st : State) : State :=
  commit st (setShowTeamMenu (negb (showTeamMenu st)) st).

Definition onToggleSidebar (st : State) : State :=
  commit st (setSidebarOpen (negb (sidebarOpen st)) st).

(** The sidebar is mounted only in private mode. *)
Definition sidebarRendered (st : State) : bool :=
  bool_decide (chatMode st = private).

End MainContainer.

(* ===================================================================== *)
(** ** [GroupChat]: data model *)
(* ===================================================================== *)

Module GroupChat.

Inductive MessageType := user | astra | system.

(** [GroupMessage] of [src/types/index.ts]; [null] and [undefined] are both
    [None]. The untyped [metadata] field is never read by the component. *)
Record GroupMessage := mkGroupMessage {
  id : jsstring;
  user_id : jsstring;
  user_name : jsstring;
  user_email : jsstring;
  message_content : jsstring;
  message_type : MessageType;
  mentions : list jsstring;
  astra_prompt : option jsstring;
  visualization_data : option jsstring;
  created_at : jsstring;
  updated_at : jsstring
}.

(** The [originalMessage] object of a [ReplyState]. *)
Record OriginalMessage := mkOriginalMessage {
  orig_id : jsstring;
  orig_content : jsstring;
  userName : jsstring;
  timestamp : jsstring
}.

Record ReplyState := mkReplyState {
  isReplying : bool;
  messageId : option jsstring;
  messageSnippet : option jsstring;
  originalMessage : option OriginalMessage
}.

(** The attachment draft held in [selectedImage]. *)
Record SelectedImage := mkSelectedImage {
  url : jsstring;
  filename : jsstring;
  size : N
}.

(** The objects the component stores in [visualizationStates]. *)
Record VizState := mkVizState {
  isGenerating : bool;
  content : option jsstring;
  hasVisualization : bool
}.

(** The [useState] cells of the component, in declaration order. *)
Record State := mkState {
  inputValue : jsstring;
  searchQuery : jsstring;
  searchResults : list GroupMessage;
  isSearching : bool;
  selectedImage : option SelectedImage;
  replyState : ReplyState;
  visualizationStates : gmap (list N) VizState;
  hasScrolledToBottom : bool;
  showTeamMembers : bool;
  showSummarizeOptions : bool;
  showSearchResults : bool;
  searchInput : jsstring
}.

Definition idleReply : ReplyState := mkReplyState false None None None.

Definition initial : State :=
  mkState [] [] [] false None idleReply ∅ false false false false [].

(** Geometry of the scroll container, in CSS pixels. *)
Record ScrollMetrics := mkScrollMetrics {
  scrollHeight : Z;
  scrollTop : Z;
  clientHeight : Z
}.

(** What a render closes over besides its own state: the values of the
    hooks [useAuth], [useGroupChat], [useNotifications], [useVisualization]
    and the DOM behind the refs. [getVisualization k] stands for
    [getVisualization(k)?.content]. *)
Record Env := mkEnv {
  userId : option jsstring;
  messages : list GroupMessage;
  hasMoreMessages : bool;
  loadingMore : bool;
  loading : bool;
  isTabActive : bool;
  currentVisualization : option jsstring;
  getVisualization : jsstring -> option jsstring;
  endAnchor : bool;
  container : option ScrollMetrics;
  isPWA : bool
}.

Inductive Behavior := smooth | auto.

(** Callbacks handed to [setTimeout]. *)
Inductive Task :=
| TaskScrollToBottom (b : Behavior)
| TaskScrollIntoView (b : Behavior).

(** One statement of a handler: a state setter of the component, or a
    synchronous call on a collaborator, the DOM or the timer. *)
Inductive Action :=
| SetInputValue (v : jsstring)
| SetSearchResults (v : list GroupMessage)
| SetIsSearching (v : bool)
| SetSelectedImage (v : option SelectedImage)
| SetReplyState (v : ReplyState)
| UpdateVisualizationStates (k : jsstring) (v : VizState)
| SetHasScrolledToBottom (v : bool)
| SetShowTeamMembers (v : bool)
| SetShowSummarizeOptions (v : bool)
| SetShowSearchResults (v : bool)
| SetSearchInput (v : jsstring)
| SetError (msg : option jsstring)
| ShowVisualization (k : jsstring)
| ScrollIntoView (b : Behavior)
| SetTimeout (t : Task) (ms : nat)
| MarkAsSeen (k : jsstring)
| LoadMoreMessages
| OnCloseTeamMenu.

(** The effect of one statement on the state cells. The updater
    [prev => ({...prev, [k]: v})] is an insertion into the current map;
    calls on collaborators leave the cells alone. *)
Definition apply (a : Action) (st : State) : State :=
  match a with
  | SetInputValue v =>
      mkState v (searchQuery st) (searchResults st) (isSearching st)
        (selectedImage st) (replyState st) (visualizationStates st)
        (hasScrolledToBottom st) (showTeamMembers st)
        (showSummarizeOptions st) (showSearchResults st) (searchInput st)
  | SetSearchResults v =>
      mkState (inputValue st) (searchQuery st) v (isSearching st)
        (selectedImage st) (replyState st) (visualizationStates st)
        (hasScrolledToBottom st) (showTeamMembers st)
        (showSummarizeOptions st) (showSearchResults st) (searchInput st)
  | SetIsSearching v =>
      mkState (inputValue st) (searchQuery st) (searchResults st) v
        (selectedImage st) (replyState st) (visualizationStates st)
        (hasScrolledToBottom st) (showTeamMembers st)
        (showSummarizeOptions st) (showSearchResults st) (searchInput st)
  | SetSelectedImage v =>
      mkState (inputValue st) (searchQuery st) (searchResults st)
        (isSearching st) v (replyState st) (visualizationStates st)
        (hasScrolledToBottom st) (showTeamMembers st)
        (showSummarizeOptions st) (showSearchResults st) (searchInput st)
  | SetReplyState v =>
      mkState (inputValue st) (searchQuery st) (searchResults st)
        (isSearching st) (selectedImage st) v (visualizationStates st)
        (hasScrolledToBottom st) (showTeamMembers st)
        (showSummarizeOptions st) (showSearchResults st) (searchInput st)
  | UpdateVisualizationStates k v =>
      mkState (inputValue st) (searchQuery st) (searchResults st)
        (isSearching st) (selectedImage st) (replyState st)
        (<[k := v]> (visualizationStates st))
        (hasScrolledToBottom st) (showTeamMembers st)
        (showSummarizeOptions st) (showSearchResults st) (searchInput st)
  | SetHasScrolledToBottom v =>
      mkState (inputValue st) (searchQuery st) (searchResults st)
        (isSearching st) (selectedImage st) (replyState st)
        (visualizationStates st) v (showTeamMembers st)
        (showSummarizeOptions st) (showSearchResults st) (searchInput st)
  | SetShowTeamMembers v =>
      mkState (inputValue st) (searchQuery st) (searchResults st)
        (isSearching st) (selectedImage st) (replyState st)
        (visualizationStates st) (hasScrolledToBottom st) v
        (showSummarizeOptions st) (showSearchResults st) (searchInput st)
  | SetShowSummarizeOptions v =>
      mkState (inputValue st) (searchQuery st) (searchResults st)
        (isSearching st) (selectedImage st) (replyState st)
        (visualizationStates st) (hasScrolledToBottom st)
        (showTeamMembers st) v (showSearchResults st) (searchInput st)
  | SetShowSearchResults v =>
      mkState (inputValue st) (searchQuery st) (searchResults st)
        (isSearching st) (selectedImage st) (replyState st)
        (visualizationStates st) (hasScrolledToBottom st)
        (showTeamMembers st) (showSummarizeOptions st) v (searchInput st)
  | SetSearchInput v =>
      mkState (inputValue st) (searchQuery st) (searchResults st)
        (isSearching st) (selectedImage st) (replyState st)
        (visualizationStates st) (hasScrolledToBottom st)
        (showTeamMembers st) (showSummarizeOptions st)
        (showSearchResults st) v
  | SetError _ | ShowVisualization _ | ScrollIntoView _ | SetTimeout _ _
  | MarkAsSeen _ | LoadMoreMessages | OnCloseTeamMenu => st
  end.

(** How an awaited promise settles. *)
Inductive Outcome (A : Type) :=
| Resolved (a : A)
| Rejected.
Arguments Resolved {A} a.
Arguments Rejected {A}.

(** A handler or effect body: statements in program order, with a node for
    each [await] on the messaging or visualization collaborator whose
    continuation covers both the [try] and the [catch] arm. *)
Inductive Prog :=
| Ret
| Act (a : Action) (k : Prog)
| AwaitSendMessage (text : jsstring) (image : option SelectedImage)
    (reply : option OriginalMessage) (k : Outcome unit -> Prog)
| AwaitSearchMessages (query : jsstring)
    (k : Outcome (list GroupMessage) -> Prog)
| AwaitGenerateVisualization (k : jsstring) (text : jsstring)
    (k' : Outcome unit -> Prog).

Notation "a '>>' p" := (Act a p) (at level 65, right associativity).

(** What an observer of a run sees, in order. *)
Inductive Obs :=
| Did (a : Action)
| CalledSendMessage (text : jsstring) (image : option SelectedImage)
    (reply : option OriginalMessage)
| CalledSearchMessages (query : jsstring)
| CalledGenerateVisualization (k : jsstring) (text : jsstring).

(** The asynchronous collaborators, as the outcome each call settles with. *)
Record Oracle := mkOracle {
  sendMessage :
    jsstring -> option SelectedImage -> option OriginalMessage -> Outcome unit;
  searchMessages : jsstring -> Outcome (list GroupMessage);
  generateVisualization : jsstring -> jsstring -> Outcome unit
}.

(** A whole run of a program with nothing interleaved at its awaits. *)
Fixpoint exec (o : Oracle) (p : Prog) (st : State) : State * list Obs :=
  match p with
  | Ret => (st, [])
  | Act a k =>
      let r := exec o k (apply a st) in (fst r, Did a :: snd r)
  | AwaitSendMessage x i r k =>
      let res := exec o (k (sendMessage o x i r)) st in
      (fst res, CalledSendMessage x i r :: snd res)
  | AwaitSearchMessages q k =>
      let res := exec o (k (searchMessages o q)) st in
      (fst res, CalledSearchMessages q :: snd res)
  | AwaitGenerateVisualization m x k =>
      let res := exec o (k (generateVisualization o m x)) st in
      (fst res, CalledGenerateVisualization m x :: snd res)
  end.

(** The synchronous prefix of a run: the state and the observations when
    the program first suspends at an [await] (or returns), and the call it
    is suspended on. *)
Fixpoint prefix (p : Prog) (st : State) : State * list Obs * option Obs :=
  match p with
  | Ret => (st, [], None)
  | Act a k =>
      let '(st', t, c) := prefix k (apply a st) in (st', Did a :: t, c)
  | AwaitSendMessage x i r _ => (st, [], Some (CalledSendMessage x i r))
  | AwaitSearchMessages q _ => (st, [], Some (CalledSearchMessages q))
  | AwaitGenerateVisualization m x _ =>
      (st, [], Some (CalledGenerateVisualization m x))
  end.

(* ===================================================================== *)
(** ** [GroupChat]: scrolling *)
(* ===================================================================== *)

(** [scrollToBottom(behavior)], followed by [k]. Nothing happens without
    the anchor element; an installed app scrolls at once and again, animated,
    100 ms later. *)
Definition scrollToBottom (env : Env) (behavior : Behavior) (k : Prog) : Prog :=
  if endAnchor env then
    if isPWA env then
      ScrollIntoView auto >> SetTimeout (TaskScrollIntoView smooth) 100 >> k
    else ScrollIntoView behavior >> k
  else k.

(** The effect with dependencies [[messages.length, scrollToBottom,
    hasScrolledToBottom]]. *)
Definition messagesChangedEffect (env : Env) (st : State) (k : Prog) : Prog :=
  if (0 <? length (messages env))%nat then
    if negb (hasScrolledToBottom st) || (0 <? length (messages env))%nat then
      scrollToBottom env auto (SetHasScrolledToBottom true >> k)
    else k
  else k.

(** [latestMessage.user_id === user?.id]. *)
Definition isOwnMessage (env : Env) (latest : GroupMessage) : bool :=
  match userId env with
  | Some u => JS.eqb (user_id latest) u
  | None => false
  end.

Definition isNearBottom (c : ScrollMetrics) : bool :=
  (scrollHeight c - scrollTop c - clientHeight c <? 100)%Z.

(** The effect with dependencies [[messages, loadingMore, scrollToBottom,
    user?.id]]. *)
Definition autoScrollEffect (env : Env) (k : Prog) : Prog :=
  if (0 <? length (messages env))%nat && negb (loadingMore env) then
    match container env with
    | Some c =>
        match last (messages env) with
        | Some latestMessage =>
            if isNearBottom c || isOwnMessage env latestMessage
            then scrollToBottom env smooth k
            else k
        | None => k
        end
    | None => k
    end
  else k.

(** The effects that run, in declaration order, after a render in which
    the message list grew: [messages.length] and [messages] both changed. *)
Definition onMessagesGrowth (env : Env) (st : State) : Prog :=
  messagesChangedEffect env st (autoScrollEffect env Ret).

Definition handleScroll (env : Env) : Prog :=
  match container env with
  | None => Ret
  | Some c =>
      let rest :=
        let isAtBottom :=
          (scrollHeight c - scrollTop c - clientHeight c <? 50)%Z in
        if isAtBottom && isTabActive env && (0 <? length (messages env))%nat
        then match last (messages env) with
             | Some latestMessage => MarkAsSeen (id latestMessage) >> Ret
             | None => Ret
             end
        else Ret in
      if (scrollTop c =? 0)%Z && hasMoreMessages env
         && negb (loadingMore env) && negb (loading env)
      then LoadMoreMessages >> rest
      else rest
  end.

(** The scroll commands among the observations of a run. *)
Definition isScroll (ob : Obs) : bool :=
  match ob with
  | Did (ScrollIntoView _) | Did (SetTimeout _ _) => true
  | _ => false
  end.

(* ===================================================================== *)
(** ** [GroupChat]: sending, searching, replying *)
(* ===================================================================== *)

Definition sendErrorText : jsstring :=
  lit "Failed to send message. Please try again.".
Definition searchErrorText : jsstring :=
  lit "Search failed. Please try again.".

(** The guard [(!inputValue.trim() && !selectedImage) || loading]. *)
Definition sendRejected (env : Env) (st : State) : bool :=
  negb (truthy (trim (inputValue st))) && negb (truthyObj (selectedImage st))
  || loading env.

(** The code after [await sendMessage(...)]: the rest of the [try] block,
    or the [catch] block. *)
Definition afterSend (r : Outcome unit) : Prog :=
  match r with
  | Resolved _ => SetTimeout (TaskScrollToBottom smooth) 100 >> Ret
  | Rejected => SetError (Some sendErrorText) >> Ret
  end.

Definition handleSendMessage (env : Env) (st : State) : Prog :=
  if sendRejected env st then Ret
  else
    let messageText := trim (inputValue st) in
    let imageData := selectedImage st in
    let replyData :=
      if isReplying (replyState st) then originalMessage (replyState st)
      else None in
    SetInputValue [] >>
    SetSelectedImage None >>
    SetReplyState (mkReplyState false None None None) >>
    AwaitSendMessage messageText imageData replyData afterSend.

(** The code after [await searchMessages(query)]: the rest of the [try]
    block or the [catch] block, then the [finally] block. *)
Definition afterSearch (r : Outcome (list GroupMessage)) : Prog :=
  let finally := SetIsSearching false >> Ret in
  match r with
  | Resolved results =>
      SetSearchResults results >> SetShowSearchResults true >> finally
  | Rejected => SetError (Some searchErrorText) >> finally
  end.

Definition handleSearch (query : jsstring) : Prog :=
  if negb (truthy (trim query)) then Ret
  else SetIsSearching true >> AwaitSearchMessages query afterSearch.

Definition ellipsis : jsstring := lit "...".

Definition handleReply (messageId messageContent userName timestamp : jsstring)
  : Prog :=
  SetReplyState
    (mkReplyState true (Some messageId)
       (Some (if (100 <? length messageContent)%nat
              then substring messageContent 0 100 ++ ellipsis
              else messageContent))
       (Some (mkOriginalMessage messageId messageContent userName timestamp)))
  >> Ret.

Definition cancelReply : Prog :=
  SetReplyState (mkReplyState false None None None) >> Ret.

(* ===================================================================== *)
(** ** [GroupChat]: visualizations *)
(* ===================================================================== *)

(** The placeholder the component stores as [content] once generation is
    done. *)
Definition generated : jsstring := lit "generated".

(** The code after [await generateVisualization(...)]: the rest of the
    [try] block, or the [catch] block. *)
Definition afterGenerate (messageId : jsstring) (r : Outcome unit) : Prog :=
  match r with
  | Resolved _ =>
      UpdateVisualizationStates messageId
        (mkVizState false (Some generated) true) >> Ret
  | Rejected =>
      UpdateVisualizationStates messageId
        (mkVizState false None false) >> Ret
  end.

Definition handleCreateVisualization (messageId messageContent : jsstring)
  : Prog :=
  UpdateVisualizationStates messageId (mkVizState true None false) >>
  AwaitGenerateVisualization messageId messageContent
    (afterGenerate messageId).

(** [messages.find(m => m.id === k)?.visualization_data]. *)
Definition persistedVisualization (env : Env) (k : jsstring) : option jsstring :=
  find (fun m => JS.eqb (id m) k) (messages env) ≫= visualization_data.

(** [localState?.content && localState.content !== 'generated']. *)
Definition localVisualizationUsable (st : State) (k : jsstring) : bool :=
  match visualizationStates st !! k ≫= content with
  | Some c => truthy c && negb (JS.eqb c generated)
  | None => false
  end.

(** The first message with id [k] carries a payload that is neither null
    nor empty. *)
Definition persistedPresent (env : Env) (k : jsstring) : Prop :=
  exists m d,
    find (fun m => JS.eqb (id m) k) (messages env) = Some m
    /\ visualization_data m = Some d /\ d <> [].

(** The local entry for [k] has content that is neither null nor empty and
    is not the placeholder. *)
Definition localPresent (st : State) (k : jsstring) : Prop :=
  exists v c,
    visualizationStates st !! k = Some v
    /\ content v = Some c /\ c <> [] /\ c <> generated.

(** The second parameter [visualizationData] is never read. *)
Definition handleViewVisualization (env : Env) (st : State)
    (messageId : jsstring) (visualizationData : option jsstring) : Prog :=
  if truthyOpt (persistedVisualization env messageId) then
    ShowVisualization messageId >> Ret
  else if localVisualizationUsable st messageId then
    ShowVisualization messageId >> Ret
  else Ret.

(** The render branch on [currentVisualization]: the content handed to
    [VisualizationView], or [None] when the ordinary chat view is rendered. *)
Definition visualizationSurface (env : Env) : option jsstring :=
  match currentVisualization env with
  | Some cv =>
      if truthy cv then
        let visualizationContent :=
          if truthyOpt (persistedVisualization env cv)
          then persistedVisualization env cv
          else getVisualization env cv in
        match visualizationContent with
        | Some c => if truthy c && negb (JS.eqb c generated) then Some c else None
        | None => None
        end
      else None
  | None => None
  end.

(** [isGenerating] and [hasVisualization] are not both set, at any key. *)
Definition vizConsistent (m : gmap (list N) VizState) : Prop :=
  map_Forall (fun _ v => isGenerating v && hasVisualization v = false) m.

Definition generatingAt (st : State) (k : jsstring) : bool :=
  match visualizationStates st !! k with
  | Some v => isGenerating v
  | None => false
  end.

End GroupChat.

(* ===================================================================== *)
(** ** Sample data used by the examples below *)
(* ===================================================================== *)

Module Samples.
Import GroupChat.

Definition message (k who text : string) (viz : option jsstring)
  : GroupMessage :=
  mkGroupMessage (lit k) (lit who) (lit who) (lit who) (lit text) user []
    None viz (lit "2025-01-01T00:00:00Z") (lit "2025-01-01T00:00:00Z").

(** A tall list scrolled to its very top: 1400 pixels are below the
    viewport. *)
Definition farFromBottom : ScrollMetrics := mkScrollMetrics 2000 0 600.

(** Alice is signed in; the newest of two messages is Bob's. *)
Definition envBobWrote : Env :=
  mkEnv (Some (lit "alice"))
    [message "m1" "alice" "hello" None; message "m2" "bob" "hi" None]
    false false false true None (fun _ => None)
    true (Some farFromBottom) false.

(** The same, while a send or the first load is in flight. *)
Definition envLoading : Env :=
  mkEnv (Some (lit "alice"))
    [message "m1" "alice" "hello" None; message "m2" "bob" "hi" None]
    false false true true None (fun _ => None)
    true (Some farFromBottom) false.

(** Message [m1] carries a persisted visualization. *)
Definition envPersisted : Env :=
  mkEnv (Some (lit "alice"))
    [message "m1" "alice" "hello" (Some (lit "<html>chart</html>"));
     message "m2" "bob" "hi" None]
    false false false true None (fun _ => None)
    true (Some farFromBottom) false.

Definition withInput (text : string) (st : State) : State :=
  apply (SetInputValue (lit text)) st.

(** The initial load has been scrolled to. *)
Definition stScrolled : State := apply (SetHasScrolledToBottom true) initial.

(** The entry written when a generation is requested. *)
Definition starting : VizState := mkVizState true None false.

(** A generation for message [m2] is under way. *)
Definition stGenerating : State :=
  apply (UpdateVisualizationStates (lit "m2") starting) initial.

(** The local cell of [m2] holds real content, that of [m1] the
    placeholder. *)
Definition stLocalContent : State :=
  apply (UpdateVisualizationStates (lit "m2")
           (mkVizState false (Some (lit "<svg/>")) true))
    (apply (UpdateVisualizationStates (lit "m1")
              (mkVizState false (Some generated) true)) initial).


(** A draft with text, an attachment and a reply target. *)
Definition stDraft : State :=
  apply (SetReplyState
           (mkReplyState true (Some (lit "m2")) (Some (lit "hi"))
              (Some (mkOriginalMessage (lit "m2") (lit "hi") (lit "bob")
                       (lit "2025-01-01T00:00:00Z")))))
    (apply (SetSelectedImage
              (Some (mkSelectedImage (lit "data:image/png;base64,AAAA")
                       (lit "a.png") 4)))
       (withInput " see this " initial)).

Definition allResolve : Oracle :=
  mkOracle (fun _ _ _ => Resolved tt)
    (fun _ => Resolved [message "m2" "bob" "hi" None])
    (fun _ _ => Resolved tt).

Definition allReject : Oracle :=
  mkOracle (fun _ _ _ => Rejected) (fun _ => Rejected) (fun _ _ => Rejected).

Definition letters (n : nat) : jsstring := repeat 97%N n.

End Samples.

(* ===================================================================== *)
(** ** [MainContainer]: the callbacks it hands down and what it mounts *)
(* ===================================================================== *)

Module MainContainerView.
Import MainContainer.

(** [onClose] of [ChatSidebar] and [onCloseSidebar] of [ChatContainer]. *)
Definition onCloseSidebar (st : State) : State :=
  commit st (setSidebarOpen false st).

Definition onConversationLoaded (st : State) : State :=
  commit st (setConversationToLoad None st).

Definition onNewChatStarted (st : State) : State :=
  commit st (setShouldStartNewChat false st).

(** [onCloseTeamMenu] of [GroupChat]. *)
Definition onCloseTeamMenu (st : State) : State :=
  commit st (setShowTeamMenu false st).

(** The component rendered under "Chat Content". *)
Inductive Content := ReportsView | ChatContainer | GroupChat.

Definition content (st : State) : Content :=
  match chatMode st with
  | reports => ReportsView
  | private => ChatContainer
  | team => GroupChat
  end.

(** The [showSidebarToggle] prop of [Header]. *)
Definition showSidebarToggle (st : State) : bool :=
  bool_decide (chatMode st = private).

(** Every callback the component wires into its children. *)
Inductive Event :=
| ModeChange (m : ChatMode)
| LoadConversation (conversationId : jsstring)
| StartNewConversation
| SwitchToPrivateChat (conversationId : jsstring)
| ToggleTeamMenu
| ToggleSidebar
| CloseSidebar
| ConversationLoaded
| NewChatStarted
| CloseTeamMenu.

Definition handle (e : Event) (st : State) : State :=
  match e with
  | ModeChange m => onModeChange m st
  | LoadConversation c => handleLoadConversation c st
  | StartNewConversation => handleStartNewConversation st
  | SwitchToPrivateChat c => handleSwitchToPrivateChat c st
  | ToggleTeamMenu => handleToggleTeamMenu st
  | ToggleSidebar => onToggleSidebar st
  | CloseSidebar => onCloseSidebar st
  | ConversationLoaded => onConversationLoaded st
  | NewChatStarted => onNewChatStarted st
  | CloseTeamMenu => onCloseTeamMenu st
  end.

Definition changesMode (e : Event) : bool :=
  match e with
  | ModeChange _ | SwitchToPrivateChat _ => true
  | _ => false
  end.

End MainContainerView.

(* ===================================================================== *)
(** ** [GroupChat]: the remaining effects and handlers *)
(* ===================================================================== *)

Module GroupChatUI.
Import GroupChat.

(** The delays of the mount effect. *)
Definition scrollAttempts : list nat := [100; 300; 500; 1000]%nat.

(** The effect with the empty dependency list: four delayed calls of
    [scrollToBottom('auto')], then [markAsSeen] for the newest message when
    the tab is active and there is a message. *)
Definition mountEffect (env : Env) : Prog :=
  fold_right (fun delay k => SetTimeout (TaskScrollToBottom auto) delay >> k)
    (if isTabActive env && (0 <? length (messages env))%nat
     then match last (messages env) with
          | Some latestMessage => MarkAsSeen (id latestMessage) >> Ret
          | None => Ret
          end
     else Ret)
    scrollAttempts.

(** What a timer callback does when it fires, under the DOM of that
    moment. [TaskScrollIntoView] is
    [messagesEndRef.current?.scrollIntoView(...)]. *)
Definition runTask (env : Env) (t : Task) : Prog :=
  match t with
  | TaskScrollToBottom b => scrollToBottom env b Ret
  | TaskScrollIntoView b =>
      if endAnchor env then ScrollIntoView b >> Ret else Ret
  end.

(** The [File] picked in the hidden file input: [file.name], [file.size]. *)
Record File := mkFile {
  file_name : jsstring;
  file_size : N
}.

(** [10 * 1024 * 1024]. *)
Definition maxImageBytes : N := 10 * 1024 * 1024.

Definition fileTooLargeText : jsstring := lit "File size must be less than 10MB".

(** The three ways [handleImageUpload] ends: no file was picked; the file
    is refused with an alert; a [FileReader] is started on it. *)
Inductive UploadStep :=
| UploadNothing
| UploadAlert (msg : jsstring)
| UploadRead (f : File).

Definition handleImageUpload (file : option File) : UploadStep :=
  match file with
  | Some f =>
      if (maxImageBytes <? file_size f)%N then UploadAlert fileTooLargeText
      else UploadRead f
  | None => UploadNothing
  end.

(** [reader.onload], with the data URL the reader produced. *)
Definition readerOnload (f : File) (result : jsstring) : Prog :=
  SetSelectedImage (Some (mkSelectedImage result (file_name f) (file_size f)))
  >> Ret.

Definition handleShowTeamMembers : Prog :=
  SetShowTeamMembers true >> OnCloseTeamMenu >> Ret.

Definition handleSummarizeChat : Prog :=
  SetShowSummarizeOptions true >> OnCloseTeamMenu >> Ret.

Definition prompt24hours : jsstring :=
  lit "Please provide a comprehensive summary of our team chat from the last 24 hours. Include key decisions, action items, and important discussions.".
Definition prompt7days : jsstring :=
  lit "Please provide a comprehensive summary of our team chat from the last 7 days. Include key decisions, action items, and important discussions.".
Definition prompt30days : jsstring :=
  lit "Please provide a comprehensive summary of our team chat from the last 30 days. Include key decisions, action items, and important discussions.".

(** The own properties of the [prompts] object. Names inherited from
    [Object.prototype] are not modelled; no call site passes one. *)
Definition prompts (period : jsstring) : option jsstring :=
  if JS.eqb period (lit "24hours") then Some prompt24hours
  else if JS.eqb period (lit "7days") then Some prompt7days
  else if JS.eqb period (lit "30days") then Some prompt30days
  else None.

(** [sendMessage(prompt)] passes neither image nor reply target, and
    nothing follows the [await]. *)
Definition handleSummarizeWithPeriod (period : jsstring) : Prog :=
  SetShowSummarizeOptions false >>
  match prompts period with
  | Some prompt =>
      if truthy prompt then AwaitSendMessage prompt None None (fun _ => Ret)
      else Ret
  | None => Ret
  end.

(** The arguments of the three buttons of the summarize modal. *)
Inductive Period := last24hours | last7days | last30days.

Definition periodKey (p : Period) : jsstring :=
  match p with
  | last24hours => lit "24hours"
  | last7days => lit "7days"
  | last30days => lit "30days"
  end.

(** [onKeyPress] of the search box. *)
Definition onSearchKeyPress (key : jsstring) (st : State) : Prog :=
  if JS.eqb key (lit "Enter") && truthy (trim (searchInput st))
  then handleSearch (searchInput st)
  else Ret.

(** The close button of the search results modal. *)
Definition closeSearchResults : Prog :=
  SetShowSearchResults false >> SetSearchResults [] >> SetSearchInput [] >> Ret.

(** Everything that can start code of the component: its effects and the
    callbacks wired into the markup. *)
Inductive UIEvent :=
| Mounted
| MessagesGrew
| Scrolled
| InputChanged (v : jsstring)
| SendPressed
| FilePicked (file : option File)
| ImageRemoved
| ReplyPressed (messageId messageContent userName timestamp : jsstring)
| ReplyCancelled
| CreateVisualizationPressed (messageId messageContent : jsstring)
| ViewVisualizationPressed (messageId : jsstring)
    (visualizationData : option jsstring)
| SearchInputChanged (v : jsstring)
| SearchKeyPressed (key : jsstring)
| SearchResultsClosed
| TeamMembersPressed
| TeamMembersClosed
| SummarizePressed
| SummarizeClosed
| SummarizePeriodPressed (p : Period)
| LoadMorePressed
| ErrorDismissed.

(** The code an event starts, for the render it happens in. A picked file
    is handled apart, by [handleImageUpload]. *)
Definition program (env : Env) (st : State) (e : UIEvent) : Prog :=
  match e with
  | Mounted => mountEffect env
  | MessagesGrew => onMessagesGrowth env st
  | Scrolled => handleScroll env
  | InputChanged v => SetInputValue v >> Ret
  | SendPressed => handleSendMessage env st
  | FilePicked _ => Ret
  | ImageRemoved => SetSelectedImage None >> Ret
  | ReplyPressed k c u t => handleReply k c u t
  | ReplyCancelled => cancelReply
  | CreateVisualizationPressed k c => handleCreateVisualization k c
  | ViewVisualizationPressed k d => handleViewVisualization env st k d
  | SearchInputChanged v => SetSearchInput v >> Ret
  | SearchKeyPressed key => onSearchKeyPress key st
  | SearchResultsClosed => closeSearchResults
  | TeamMembersPressed => handleShowTeamMembers
  | TeamMembersClosed => SetShowTeamMembers false >> Ret
  | SummarizePressed => handleSummarizeChat
  | SummarizeClosed => SetShowSummarizeOptions false >> Ret
  | SummarizePeriodPressed p => handleSummarizeWithPeriod (periodKey p)
  | LoadMorePressed => LoadMoreMessages >> Ret
  | ErrorDismissed => SetError None >> Ret
  end.

End GroupChatUI.

(* ===================================================================== *)
(** ** [GroupChat]: runs with promises and timers in flight *)
(* ===================================================================== *)

Module EventLoop.
Import GroupChat GroupChatUI.

(** Work that is waiting for the outside world: the code after an [await],
    a file being read, a timer. *)
Inductive Pending :=
| PendingSend (k : Outcome unit -> Prog)
| PendingSearch (k : Outcome (list GroupMessage) -> Prog)
| PendingGenerate (k : Outcome unit -> Prog)
| PendingRead (f : File)
| PendingTimer (t : Task).

Record Config := mkConfig {
  cells : State;
  pending : list Pending
}.

Definition initialConfig : Config := mkConfig initial [].

(** Run a program until it returns or suspends: the state it leaves, the
    timers it set and the continuation it is suspended on. *)
Fixpoint launch (p : Prog) (st : State) : State * list Pending :=
  match p with
  | Ret => (st, [])
  | Act a k =>
      let r := launch k (apply a st) in
      (fst r, match a with
              | SetTimeout t _ => PendingTimer t :: snd r
              | _ => snd r
              end)
  | AwaitSendMessage _ _ _ k => (st, [PendingSend k])
  | AwaitSearchMessages _ k => (st, [PendingSearch k])
  | AwaitGenerateVisualization _ _ k => (st, [PendingGenerate k])
  end.

(** How the outside world answers. *)
Inductive Settlement :=
| SendSettled (r : Outcome unit)
| SearchSettled (r : Outcome (list GroupMessage))
| GenerateSettled (r : Outcome unit)
| ReadLoaded (result : jsstring)
| TimerElapsed (env : Env).

Definition resume (p : Pending) (s : Settlement) : option Prog :=
  match p, s with
  | PendingSend k, SendSettled r => Some (k r)
  | PendingSearch k, SearchSettled r => Some (k r)
  | PendingGenerate k, GenerateSettled r => Some (k r)
  | PendingRead f, ReadLoaded result => Some (readerOnload f result)
  | PendingTimer t, TimerElapsed env => Some (runTask env t)
  | _, _ => None
  end.

(** One turn of the event loop: an event starts its code under the hook
    values of the moment, or the [i]-th pending item is answered. *)
Inductive Move :=
| Fire (env : Env) (e : UIEvent)
| Settle (i : nat) (s : Settlement).

Definition fire (env : Env) (e : UIEvent) (c : Config) : Config :=
  match e with
  | FilePicked file =>
      match handleImageUpload file with
      | UploadRead f => mkConfig (cells c) (pending c ++ [PendingRead f])
      | _ => c
      end
  | _ =>
      let r := launch (program env (cells c) e) (cells c) in
      mkConfig (fst r) (pending c ++ snd r)
  end.

Definition settle (i : nat) (s : Settlement) (c : Config) : Config :=
  match pending c !! i with
  | Some p =>
      match resume p s with
      | Some prog =>
          let r := launch prog (cells c) in
          mkConfig (fst r) (delete i (pending c) ++ snd r)
      | None => c
      end
  | None => c
  end.

Definition move (m : Move) (c : Config) : Config :=
  match m with
  | Fire env e => fire env e c
  | Settle i s => settle i s c
  end.

Definition play (ms : list Move) (c : Config) : Config :=
  fold_left (fun c m => move m c) ms c.

(** The three objects [handleCreateVisualization] ever writes. *)
Definition vizShape (v : VizState) : Prop :=
  v = mkVizState true None false
  \/ v = mkVizState false (Some generated) true
  \/ v = mkVizState false None false.

Definition imageOk (o : option SelectedImage) : Prop :=
  match o with
  | Some i => (size i <= maxImageBytes)%N
  | None => True
  end.

(** Idle with every other field null, or replying to a message whose id
    is also the id of the kept original, with a snippet of at most 103 code
    units. *)
Definition replyWellFormed (r : ReplyState) : Prop :=
  match isReplying r, messageId r, messageSnippet r, originalMessage r with
  | false, None, None, None => True
  | true, Some k, Some s, Some om =>
      orig_id om = k /\ (length s <= 103)%nat
  | _, _, _, _ => False
  end.

Definition stateOk (st : State) : Prop :=
  map_Forall (fun _ v => vizShape v) (visualizationStates st)
  /\ replyWellFormed (replyState st)
  /\ imageOk (selectedImage st).

Definition actionOk (a : Action) : Prop :=
  match a with
  | SetSelectedImage i => imageOk i
  | SetReplyState r => replyWellFormed r
  | UpdateVisualizationStates _ v => vizShape v
  | _ => True
  end.

Fixpoint progOk (p : Prog) : Prop :=
  match p with
  | Ret => True
  | Act a k => actionOk a /\ progOk k
  | AwaitSendMessage _ _ _ k => forall r, progOk (k r)
  | AwaitSearchMessages _ k => forall r, progOk (k r)
  | AwaitGenerateVisualization _ _ k => forall r, progOk (k r)
  end.

Definition pendingOk (p : Pending) : Prop :=
  match p with
  | PendingSend k => forall r, progOk (k r)
  | PendingSearch k => forall r, progOk (k r)
  | PendingGenerate k => forall r, progOk (k r)
  | PendingRead f => (file_size f <= maxImageBytes)%N
  | PendingTimer _ => True
  end.

Definition configOk (c : Config) : Prop :=
  stateOk (cells c) /\ Forall pendingOk (pending c).

End EventLoop.

(* ===================================================================== *)
(** ** More sample data *)
(* ===================================================================== *)

Module MoreSamples.
Import GroupChat GroupChatUI EventLoop Samples.

(** Older messages are being loaded. *)
Definition envLoadingMore : Env :=
  mkEnv (Some (lit "alice"))
    [message "m1" "alice" "hello" None; message "m2" "bob" "hi" None]
    true true false true None (fun _ => None)
    true (Some farFromBottom) false.

(** The viewport is 20 pixels from the bottom of the list. *)
Definition nearBottom : ScrollMetrics := mkScrollMetrics 2000 1380 600.

Definition envNearBottom : Env :=
  mkEnv (Some (lit "alice"))
    [message "m1" "alice" "hello" None; message "m2" "bob" "hi" None]
    false false false true None (fun _ => None)
    true (Some nearBottom) false.

(** Scrolled to the very top with older messages left to load. *)
Definition envAtTop : Env :=
  mkEnv (Some (lit "alice"))
    [message "m1" "alice" "hello" None; message "m2" "bob" "hi" None]
    true false false true None (fun _ => None)
    true (Some farFromBottom) false.

(** The anchor element is not mounted. *)
Definition envNoAnchor : Env :=
  mkEnv (Some (lit "alice"))
    [message "m1" "alice" "hello" None; message "m2" "bob" "hi" None]
    false false false true None (fun _ => None)
    false (Some farFromBottom) false.

(** Message [m1] is on display and carries a payload. *)
Definition envViewing : Env :=
  mkEnv (Some (lit "alice"))
    [message "m1" "alice" "hello" (Some (lit "<html>chart</html>"));
     message "m2" "bob" "hi" None]
    false false false true (Some (lit "m1")) (fun _ => Some (lit "<svg/>"))
    true (Some farFromBottom) false.

(** Message [m1] is current, and its payload is the placeholder itself;
    the visualization hook holds nothing. *)
Definition envPlaceholderPayload : Env :=
  mkEnv (Some (lit "alice"))
    [message "m1" "alice" "hello" (Some generated);
     message "m2" "bob" "hi" None]
    false false false true (Some (lit "m1")) (fun _ => None)
    true (Some farFromBottom) false.

(** Message [m2] is current and has no payload; the visualization hook
    holds content for it. *)
Definition envHookOnly : Env :=
  mkEnv (Some (lit "alice"))
    [message "m1" "alice" "hello" None; message "m2" "bob" "hi" None]
    false false false true (Some (lit "m2")) (fun _ => Some (lit "<p>hook</p>"))
    true (Some farFromBottom) false.

(** The two entries [afterGenerate] writes. *)
Definition ready : VizState := mkVizState false (Some generated) true.
Definition failed : VizState := mkVizState false None false.

Definition picture : SelectedImage :=
  mkSelectedImage (lit "data:image/png;base64,AAAA") (lit "a.png") 4.

(** A draft with an attachment and no text. *)
Definition stImageOnly : State :=
  apply (SetSelectedImage (Some picture)) (withInput "  " initial).

Definition smallFile : File := mkFile (lit "a.png") 4.
Definition limitFile : File := mkFile (lit "b.png") 10485760.
Definition hugeFile : File := mkFile (lit "c.png") 10485761.

End MoreSamples.

(* ===================================================================== *)
(** ** Facts about the string primitives *)
(* ===================================================================== *)

Module JSFacts.

Lemma dropWhile_nil (p : N -> bool) (s : jsstring) :
  dropWhile p s = [] <-> forallb p s = true.
Proof.
  induction s as [|c s IH]; simpl.
  - split; reflexivity.
  - destruct (p c); simpl.
    + exact IH.
    + split; discriminate.
Qed.

Lemma forallb_dropWhile (p : N -> bool) (s : jsstring) :
  forallb p (dropWhile p s) = true -> forallb p s = true.
Proof.
  induction s as [|c s IH]; simpl; [reflexivity|].
  case_eq (p c); intros Hc; simpl.
  - exact IH.
  - rewrite Hc. discriminate.
Qed.

Lemma forallb_rev (p : N -> bool) (s : jsstring) :
  forallb p (rev s) = true -> forallb p s = true.
Proof.
  rewrite !forallb_forall. intros H x Hx. apply H, in_rev.
  rewrite rev_involutive. exact Hx.
Qed.

(** [trim] leaves nothing exactly when the string is blank. *)
Lemma trim_nil_blank (s : jsstring) : trim s = [] <-> blank s = true.
Proof.
  unfold trim, trimEnd, trimStart, blank. split.
  - intros H. apply forallb_dropWhile, forallb_rev, dropWhile_nil.
    apply (f_equal (@rev N)) in H. rewrite rev_involutive in H. exact H.
  - intros H. apply dropWhile_nil in H. rewrite H. reflexivity.
Qed.

Lemma truthy_nil (s : jsstring) : truthy s = false <-> s = [].
Proof. destruct s; simpl; split; congruence. Qed.

Lemma truthy_trim (s : jsstring) : truthy (trim s) = negb (blank s).
Proof.
  destruct (blank s) eqn:Hb; simpl.
  - apply truthy_nil, trim_nil_blank, Hb.
  - destruct (truthy (trim s)) eqn:Ht; [reflexivity|].
    apply truthy_nil, trim_nil_blank in Ht. congruence.
Qed.

(** From index 0, [substring] is a plain prefix. *)
Lemma substring_prefix (s : jsstring) (n : nat) :
  substring s 0 n = firstn n s.
Proof.
  unfold substring. simpl. rewrite Nat.sub_0_r.
  destruct (Nat.le_ge_cases n (length s)) as [H|H].
  - rewrite Nat.min_l by exact H. reflexivity.
  - rewrite Nat.min_r by exact H. change (skipn 0 s) with s.
    rewrite firstn_all. symmetry. apply firstn_all2. exact H.
Qed.

Example trim_example :
  trim (lit "  hi there  ") = lit "hi there".
Proof. reflexivity. Qed.

Example trim_blank_example : trim (lit "   ") = [].
Proof. reflexivity. Qed.

Example substring_example :
  substring (lit "abcdef") 0 3 = lit "abc" /\ substring (lit "ab") 0 100 = lit "ab".
Proof. split; reflexivity. Qed.

End JSFacts.

(* ===================================================================== *)
(** ** [MainContainer]: what a mode switch does to the sidebar *)
(* ===================================================================== *)

Module MainContainerSpec.
Import MainContainer.

(** Entering private mode from another mode closes the sidebar. *)
Lemma onModeChange_private_closes (st : State) :
  chatMode st <> private -> sidebarOpen (onModeChange private st) = false.
Proof.
  intros Hne. unfold onModeChange, commit. simpl.
  destruct (decide (chatMode st = private)) as [E|_]; [contradiction|].
  reflexivity.
Qed.

(** Selecting any mode other than private leaves the sidebar cell as it
    was. *)
Lemma onModeChange_away_keeps_sidebar (m : ChatMode) (st : State) :
  m <> private -> sidebarOpen (onModeChange m st) = sidebarOpen st.
Proof.
  intros Hm. unfold onModeChange, commit, chatModeEffect. simpl.
  destruct (decide (chatMode st = m)); [reflexivity|].
  destruct m; try reflexivity. contradiction.
Qed.

(** C1 (the code departs from the claim): with the sidebar open in private
    mode, switching the mode to [team] or to [reports] leaves [sidebarOpen]
    true; the effect only closes the sidebar when the new mode is
    [private], so the cell is not closed on leaving private mode (the
    sidebar is merely not mounted there). *)
Theorem sidebar_stays_open_leaving_private :
  let st := mkState true private None false false in
  sidebarOpen (onModeChange team st) = true
  /\ sidebarOpen (onModeChange reports st) = true
  /\ sidebarRendered (onModeChange team st) = false
  /\ sidebarOpen (onModeChange private (onModeChange team st)) = false.
Proof. repeat split. Qed.

End MainContainerSpec.

(* ===================================================================== *)
(** ** [GroupChat]: scrolling on new messages *)
(* ===================================================================== *)

Module ScrollSpec.
Import GroupChat Samples.

Section Effects.
Variable o : Oracle.

Lemma nonempty_length (env : Env) :
  messages env <> [] -> (0 <? length (messages env))%nat = true.
Proof.
  destruct (messages env); [congruence|]. reflexivity.
Qed.



(** The first effect scrolls on every change of a non-empty list: its inner
    test repeats the outer one, so neither [hasScrolledToBottom], nor the
    viewport, nor the author, nor [loadingMore] is consulted. *)
Lemma messagesChangedEffect_scrolls (env : Env) (st : State) (k : Prog) :
  messages env <> [] ->
  endAnchor env = true ->
  In (Did (ScrollIntoView auto))
     (snd (exec o (messagesChangedEffect env st k) st)).
Proof.
  intros Hn Ha. unfold messagesChangedEffect, scrollToBottom.
  rewrite (nonempty_length env Hn), orb_true_r, Ha.
  destruct (isPWA env); left; reflexivity.
Qed.

(** X2: Scrolling marks the newest message as seen exactly when the viewport
    is within 50 pixels of the bottom and the tab is active. *)
Lemma handleScroll_marks_seen (env : Env) (st : State)
    (c : ScrollMetrics) (latest : GroupMessage) :
  container env = Some c ->
  last (messages env) = Some latest ->
  In (Did (MarkAsSeen (id latest))) (snd (exec o (handleScroll env) st))
  <-> (scrollHeight c - scrollTop c - clientHeight c < 50)%Z
      /\ isTabActive env = true.
Proof.
  intros Hc Hlast. unfold handleScroll. rewrite Hc, Hlast.
  assert (Hn : (0 <? length (messages env))%nat = true).
  { apply nonempty_length. intros E. rewrite E in Hlast. discriminate. }
  rewrite Hn, andb_true_r.
  destruct (Z.ltb_spec (scrollHeight c - scrollTop c - clientHeight c) 50)
    as [Hlt|Hge];
    destruct (isTabActive env);
    destruct ((scrollTop c =? 0)%Z && hasMoreMessages env
              && negb (loadingMore env) && negb (loading env));
    cbn; split; intros H;
    repeat match goal with
           | H : _ \/ _ |- _ => destruct H
           | H : _ /\ _ |- _ => destruct H
           end;
    try discriminate; try contradiction; try lia; auto.
Qed.

End Effects.

(** C2 (the code departs from the claim): after the initial load, with no
    load of older messages under way, the viewport 1400 pixels from the
    bottom and the newest message written by somebody else, the effects
    run on the growth of the list still issue a scroll to the bottom: the
    first effect scrolls on every change of a non-empty list. *)
Theorem growth_scrolls_despite_far_viewport :
  hasScrolledToBottom stScrolled = true
  /\ loadingMore envBobWrote = false
  /\ option_map isNearBottom (container envBobWrote) = Some false
  /\ option_map (isOwnMessage envBobWrote) (last (messages envBobWrote))
     = Some false
  /\ snd (exec allResolve (onMessagesGrowth envBobWrote stScrolled) stScrolled)
     = [Did (ScrollIntoView auto); Did (SetHasScrolledToBottom true)]
  /\ snd (exec allResolve (autoScrollEffect envBobWrote Ret) stScrolled) = [].
Proof. repeat split. Qed.

End ScrollSpec.

(* ===================================================================== *)
(** ** [GroupChat]: the send pipeline *)
(* ===================================================================== *)

Module SendSpec.
Import GroupChat Samples JSFacts.


(** C4: when the trimmed text is empty and no image is selected, or while
    [loading] is set, [handleSendMessage] returns at once: the state is
    unchanged, and nothing at all is observed, so [sendMessage] is not
    called. *)
Theorem handleSendMessage_rejected_is_noop (o : Oracle) (env : Env) (st : State) :
  (trim (inputValue st) = [] /\ selectedImage st = None) \/ loading env = true ->
  exec o (handleSendMessage env st) st = (st, []).
Proof.
  intros [[Ht Hi]|Hl]; unfold handleSendMessage, sendRejected.
  - rewrite Ht, Hi. reflexivity.
  - rewrite Hl, orb_true_r. reflexivity.
Qed.

Lemma handleSendMessage_rejected_is_noop_witness :
  exec allResolve (handleSendMessage envBobWrote (withInput "   " initial))
    (withInput "   " initial) = (withInput "   " initial, [])
  /\ exec allResolve (handleSendMessage envLoading stDraft) stDraft
     = (stDraft, []).
Proof.
  split; apply handleSendMessage_rejected_is_noop.
  - left. split; reflexivity.
  - right. reflexivity.
Defined.



End SendSpec.

(* ===================================================================== *)
(** ** [GroupChat]: replies *)
(* ===================================================================== *)

Module ReplySpec.
Import GroupChat Samples JSFacts.

Lemma handleReply_state (o : Oracle) (st : State) (k c u t : jsstring) :
  replyState (fst (exec o (handleReply k c u t) st))
  = mkReplyState true (Some k)
      (Some (if (100 <? length c)%nat then firstn 100 c ++ ellipsis else c))
      (Some (mkOriginalMessage k c u t)).
Proof.
  unfold handleReply. cbn [exec apply fst snd replyState].
  rewrite substring_prefix. reflexivity.
Qed.

(** C6: [handleReply] stores as snippet the first 100 code units of the
    content followed by ["..."] when the content is longer than 100, and
    the content itself when its length is at most 100. *)
Theorem handleReply_snippet (o : Oracle) (st : State) (k c u t : jsstring) :
  let snippet :=
    messageSnippet (replyState (fst (exec o (handleReply k c u t) st))) in
  (100 < length c -> snippet = Some (firstn 100 c ++ lit "..."))
  /\ (length c <= 100 -> snippet = Some c).
Proof.
  cbn zeta. rewrite handleReply_state. cbn [messageSnippet].
  split; intros H.
  - apply Nat.ltb_lt in H. rewrite H. reflexivity.
  - apply Nat.ltb_ge in H. rewrite H. reflexivity.
Qed.

Lemma handleReply_snippet_witness :
  messageSnippet
    (replyState (fst (exec allResolve
       (handleReply (lit "m2") (letters 150) (lit "bob") (lit "now"))
       initial)))
  = Some (letters 100 ++ lit "...")
  /\ messageSnippet
       (replyState (fst (exec allResolve
          (handleReply (lit "m2") (letters 50) (lit "bob") (lit "now"))
          initial)))
     = Some (letters 50).
Proof.
  split.
  - apply (proj1 (handleReply_snippet allResolve initial (lit "m2")
                    (letters 150) (lit "bob") (lit "now"))).
    unfold letters. rewrite repeat_length. lia.
  - apply (proj2 (handleReply_snippet allResolve initial (lit "m2")
                    (letters 50) (lit "bob") (lit "now"))).
    unfold letters. rewrite repeat_length. lia.
Defined.

(** After [handleReply] then [cancelReply] the reply state is the initial
    one. *)
Lemma cancelReply_idle (o : Oracle) (st : State) (k c u t : jsstring) :
  replyState
    (fst (exec o cancelReply (fst (exec o (handleReply k c u t) st))))
  = replyState initial.
Proof. reflexivity. Qed.

End ReplySpec.

(* ===================================================================== *)
(** ** [GroupChat]: visualizations *)
(* ===================================================================== *)

Module VisualizationSpec.
Import GroupChat Samples JSFacts.

(** C3, as stated, fails: with a generation for [m2] already under way,
    [handleCreateVisualization] again writes the generating state for [m2]
    and again calls [generateVisualization]. *)
Lemma handleCreateVisualization_regenerates :
  generatingAt stGenerating (lit "m2") = true
  /\ snd (fst (prefix (handleCreateVisualization (lit "m2") (lit "hi"))
                 stGenerating))
     = [Did (UpdateVisualizationStates (lit "m2") starting)]
  /\ snd (prefix (handleCreateVisualization (lit "m2") (lit "hi")) stGenerating)
     = Some (CalledGenerateVisualization (lit "m2") (lit "hi")).
Proof. repeat split. Qed.

(** C3, amended: whatever the state held for the message id, a request
    writes the generating state for that id and then calls
    [generateVisualization] with the id and the content; the handler has no
    guard on [isGenerating]. *)
Theorem handleCreateVisualization_unconditional (st : State) (k c : jsstring) :
  prefix (handleCreateVisualization k c) st
  = (apply (UpdateVisualizationStates k starting) st,
     [Did (UpdateVisualizationStates k starting)],
     Some (CalledGenerateVisualization k c))
  /\ visualizationStates (fst (fst (prefix (handleCreateVisualization k c) st)))
       !! k = Some starting
  /\ generatingAt (fst (fst (prefix (handleCreateVisualization k c) st))) k
     = true.
Proof.
  split; [reflexivity|]. unfold generatingAt.
  cbn [prefix handleCreateVisualization apply fst snd visualizationStates].
  rewrite lookup_insert_eq. split; reflexivity.
Qed.

Lemma update_consistent (st : State) (k : jsstring) (v : VizState) :
  isGenerating v && hasVisualization v = false ->
  vizConsistent (visualizationStates st) ->
  vizConsistent
    (visualizationStates (apply (UpdateVisualizationStates k v) st)).
Proof.
  intros Hv Hm. unfold vizConsistent. cbn [apply visualizationStates].
  apply map_Forall_insert_2; assumption.
Qed.

(** C8: each of the three writes of [handleCreateVisualization] keeps the
    map free of entries with [isGenerating] and [hasVisualization] both
    set: the write at the start of a request, and the write after the
    promise settles, resolved or rejected, from whatever consistent state
    the handler resumes in; hence so does a whole run. *)
Theorem visualization_updates_keep_consistency
    (o : Oracle) (st : State) (k c : jsstring) :
  vizConsistent (visualizationStates st) ->
  vizConsistent
    (visualizationStates (fst (fst (prefix (handleCreateVisualization k c) st))))
  /\ (forall r st',
        vizConsistent (visualizationStates st') ->
        vizConsistent (visualizationStates (fst (exec o (afterGenerate k r) st'))))
  /\ vizConsistent
       (visualizationStates (fst (exec o (handleCreateVisualization k c) st))).
Proof.
  intros Hst.
  assert (Hafter : forall r st',
    vizConsistent (visualizationStates st') ->
    vizConsistent (visualizationStates (fst (exec o (afterGenerate k r) st')))).
  { intros [[]|] st' H'; cbn [afterGenerate exec fst];
      apply update_consistent; auto. }
  split; [|split].
  - cbn [handleCreateVisualization prefix fst]. apply update_consistent; auto.
  - exact Hafter.
  - cbn [handleCreateVisualization exec fst].
    apply Hafter, update_consistent; auto.
Qed.

Lemma stLocalContent_consistent :
  vizConsistent (visualizationStates stLocalContent).
Proof.
  unfold stLocalContent. repeat apply update_consistent; try reflexivity.
  apply map_Forall_empty.
Qed.

Lemma visualization_updates_keep_consistency_witness :
  vizConsistent (visualizationStates stLocalContent)
  /\ vizConsistent
       (visualizationStates
          (fst (exec allResolve
                  (handleCreateVisualization (lit "m1") (lit "hello"))
                  stLocalContent)))
  /\ vizConsistent
       (visualizationStates
          (fst (exec allReject
                  (handleCreateVisualization (lit "m2") (lit "hi"))
                  stLocalContent))).
Proof.
  split; [exact stLocalContent_consistent|]. split.
  - apply (visualization_updates_keep_consistency allResolve stLocalContent
             (lit "m1") (lit "hello") stLocalContent_consistent).
  - apply (visualization_updates_keep_consistency allReject stLocalContent
             (lit "m2") (lit "hi") stLocalContent_consistent).
Defined.

(** X11: On success the entry passes [absent -> generating -> ready], on failure
    [absent -> generating -> absent]. *)
Lemma handleCreateVisualization_outcomes (o : Oracle) (st : State)
    (k c : jsstring) :
  visualizationStates (fst (exec o (handleCreateVisualization k c) st)) !! k
  = Some (match generateVisualization o k c with
          | Resolved _ => mkVizState false (Some generated) true
          | Rejected => mkVizState false None false
          end).
Proof.
  cbn [handleCreateVisualization exec fst].
  destruct (generateVisualization o k c) as [[]|];
    cbn [afterGenerate exec fst apply visualizationStates];
    apply lookup_insert_eq.
Qed.

End VisualizationSpec.

(* ===================================================================== *)
(** ** [GroupChat]: viewing a visualization *)
(* ===================================================================== *)

Module ViewSpec.
Import GroupChat Samples JSFacts.

Section View.
Variables (env : Env) (st : State) (k : jsstring).

Lemma persisted_truthy :
  truthyOpt (persistedVisualization env k) = true <-> persistedPresent env k.
Proof.
  unfold persistedVisualization, persistedPresent.
  destruct (find _ (messages env)) as [m|]; cbn.
  - destruct (visualization_data m) as [d|] eqn:Hm; cbn.
    + destruct d as [|x d]; cbn.
      * split; [discriminate|]. intros (m' & d' & E & Hd & Hn).
        inversion E; subst. congruence.
      * split; [|reflexivity]. intros _. exists m, (x :: d).
        repeat split; congruence.
    + split; [discriminate|]. intros (m' & d' & E & Hd & _).
      inversion E; subst. congruence.
  - split; [discriminate|]. intros (m' & d' & E & _). discriminate.
Qed.

Lemma local_usable :
  localVisualizationUsable st k = true <-> localPresent st k.
Proof.
  unfold localVisualizationUsable, localPresent.
  destruct (visualizationStates st !! k) as [v|]; cbn.
  - destruct (content v) as [c|] eqn:Hc; cbn.
    + unfold JS.eqb. destruct c as [|x c]; cbn.
      * split; [discriminate|]. intros (v' & c' & E & Hc' & Hn & _).
        inversion E; subst. congruence.
      * case_bool_decide as Hg; cbn.
        -- split; [discriminate|]. intros (v' & c' & E & Hc' & _ & Hn).
           inversion E; subst. congruence.
        -- split; [|reflexivity]. intros _. exists v, (x :: c).
           repeat split; congruence.
    + split; [discriminate|]. intros (v' & c' & E & Hc' & _).
      inversion E; subst. congruence.
  - split; [discriminate|]. intros (v' & c' & E & _). discriminate.
Qed.

End View.

(** The handler alone: [handleViewVisualization] calls [showVisualization]
    for the message id when the message with that id carries a payload
    (present meaning neither null nor empty); failing that, when the local
    entry for the id has content that is present and is not the placeholder
    ['generated']; and otherwise does nothing: no state change and no call.
    What is then displayed is decided by the render branch. *)
Theorem handleViewVisualization_precedence
    (o : Oracle) (env : Env) (st : State) (k : jsstring)
    (visualizationData : option jsstring) :
  let run := exec o (handleViewVisualization env st k visualizationData) st in
  (persistedPresent env k -> run = (st, [Did (ShowVisualization k)]))
  /\ (~ persistedPresent env k -> localPresent st k ->
      run = (st, [Did (ShowVisualization k)]))
  /\ (~ persistedPresent env k -> ~ localPresent st k -> run = (st, [])).
Proof.
  cbn zeta. unfold handleViewVisualization.
  pose proof (persisted_truthy env k) as Hp.
  pose proof (local_usable st k) as Hq.
  destruct (truthyOpt (persistedVisualization env k));
    destruct (localVisualizationUsable st k);
    repeat split; intros; try reflexivity; exfalso; intuition congruence.
Qed.

Lemma m1_not_persisted : ~ persistedPresent envBobWrote (lit "m1").
Proof. intros H. apply persisted_truthy in H. discriminate. Qed.

Lemma m2_not_persisted : ~ persistedPresent envBobWrote (lit "m2").
Proof. intros H. apply persisted_truthy in H. discriminate. Qed.

Lemma m1_placeholder_only : ~ localPresent stLocalContent (lit "m1").
Proof. intros H. apply local_usable in H. vm_compute in H. discriminate. Qed.

Lemma handleViewVisualization_precedence_witness :
  exec allResolve
    (handleViewVisualization envPersisted stLocalContent (lit "m1") None)
    stLocalContent
  = (stLocalContent, [Did (ShowVisualization (lit "m1"))])
  /\ exec allResolve
       (handleViewVisualization envBobWrote stLocalContent (lit "m2") None)
       stLocalContent
     = (stLocalContent, [Did (ShowVisualization (lit "m2"))])
  /\ exec allResolve
       (handleViewVisualization envBobWrote stLocalContent (lit "m1") None)
       stLocalContent
     = (stLocalContent, []).
Proof.
  split; [|split].
  - apply (proj1 (handleViewVisualization_precedence allResolve envPersisted
                    stLocalContent (lit "m1") None)).
    apply persisted_truthy. reflexivity.
  - apply (proj1 (proj2 (handleViewVisualization_precedence allResolve
                           envBobWrote stLocalContent (lit "m2") None))).
    + exact m2_not_persisted.
    + apply local_usable. vm_compute. reflexivity.
  - apply (proj2 (proj2 (handleViewVisualization_precedence allResolve
                           envBobWrote stLocalContent (lit "m1") None))).
    + exact m1_not_persisted.
    + exact m1_placeholder_only.
Defined.

(** The render branch puts the persisted payload before the content the
    visualization hook holds, and withholds the placeholder. *)
Lemma visualizationSurface_prefers_payload (env : Env) (k d : jsstring) :
  currentVisualization env = Some k -> k <> [] ->
  persistedVisualization env k = Some d -> d <> [] ->
  visualizationSurface env = (if JS.eqb d generated then None else Some d).
Proof.
  intros Hk Hne Hp Hd. unfold visualizationSurface. rewrite Hk.
  destruct k as [|x k]; [congruence|]. cbn [truthy].
  rewrite Hp. destruct d as [|y d]; [congruence|].
  cbn [truthyOpt truthy andb].
  destruct (JS.eqb (y :: d) generated); reflexivity.
Qed.

End ViewSpec.

(* ===================================================================== *)
(** ** [GroupChat]: search *)
(* ===================================================================== *)

Module SearchSpec.
Import GroupChat Samples JSFacts.

Lemma handleSearch_nonblank (q : jsstring) :
  blank q = false ->
  handleSearch q = (SetIsSearching true >> AwaitSearchMessages q afterSearch).
Proof.
  intros Hb. unfold handleSearch. rewrite truthy_trim, Hb. reflexivity.
Qed.



(** C10: for a query that is not blank the search is made and, whether
    [searchMessages] resolves or rejects, the run ends with [isSearching]
    false; the code after the [await] ends with [isSearching] false from
    whatever state it resumes in. *)
Theorem handleSearch_busy_flag_cleared (o : Oracle) (st : State) (q : jsstring) :
  blank q = false ->
  In (CalledSearchMessages q) (snd (exec o (handleSearch q) st))
  /\ isSearching (fst (exec o (handleSearch q) st)) = false
  /\ (forall r st', isSearching (fst (exec o (afterSearch r) st')) = false).
Proof.
  intros Hb. rewrite (handleSearch_nonblank q Hb). cbn [exec fst snd].
  split; [right; left; reflexivity|].
  split.
  - destruct (searchMessages o q); reflexivity.
  - intros [results|] st'; reflexivity.
Qed.

Lemma handleSearch_busy_flag_cleared_witness :
  isSearching (fst (exec allResolve (handleSearch (lit "hi")) initial)) = false
  /\ isSearching (fst (exec allReject (handleSearch (lit "hi")) initial)) = false.
Proof.
  split.
  - apply (handleSearch_busy_flag_cleared allResolve initial (lit "hi")).
    reflexivity.
  - apply (handleSearch_busy_flag_cleared allReject initial (lit "hi")).
    reflexivity.
Defined.

End SearchSpec.

(* ===================================================================== *)
(** ** More facts about [trim] *)
(* ===================================================================== *)

Module TrimFacts.

Lemma dropWhile_split (p : N -> bool) (s : jsstring) :
  exists l, s = l ++ dropWhile p s /\ forallb p l = true.
Proof.
  induction s as [|c s (l & Hs & Hl)]; cbn.
  - exists []. split; reflexivity.
  - destruct (p c) eqn:Hc.
    + exists (c :: l). cbn. rewrite Hc, Hl. split; [f_equal; exact Hs|reflexivity].
    + exists []. split; reflexivity.
Qed.

Lemma dropWhile_head (p : N -> bool) (s : jsstring) (c : N) (t : jsstring) :
  dropWhile p s = c :: t -> p c = false.
Proof.
  induction s as [|x s IH]; cbn; [discriminate|].
  destruct (p x) eqn:Hx; [exact IH|].
  intros E. inversion E; subst. exact Hx.
Qed.

Lemma dropWhile_fixed (p : N -> bool) (s : jsstring) :
  dropWhile p (dropWhile p s) = dropWhile p s.
Proof.
  destruct (dropWhile p s) as [|c t] eqn:E; [reflexivity|].
  cbn. rewrite (dropWhile_head p s c t E). reflexivity.
Qed.

(** [trimEnd] keeps a prefix. *)
Lemma trimEnd_prefix (u : jsstring) : exists l, u = trimEnd u ++ l.
Proof.
  unfold trimEnd.
  destruct (dropWhile_split isWhiteSpace (rev u)) as (l & Hu & _).
  exists (rev l). rewrite <- rev_app_distr, <- Hu, rev_involutive.
  reflexivity.
Qed.

(** The result of [trim] does not begin with white space. *)
Lemma trim_head (s : jsstring) (c : N) (t : jsstring) :
  trim s = c :: t -> isWhiteSpace c = false.
Proof.
  unfold trim. intros E.
  destruct (trimEnd_prefix (trimStart s)) as (l & Hl).
  rewrite E in Hl. cbn in Hl.
  exact (dropWhile_head isWhiteSpace s c (t ++ l) Hl).
Qed.

(** Nor does it end with white space. *)
Lemma trim_last (s : jsstring) (c : N) (t : jsstring) :
  trim s = t ++ [c] -> isWhiteSpace c = false.
Proof.
  unfold trim, trimEnd. intros E.
  apply (f_equal (@rev N)) in E.
  rewrite rev_involutive, rev_app_distr in E. cbn in E.
  exact (dropWhile_head _ _ _ _ E).
Qed.

(** Trimming twice is trimming once. *)
Lemma trim_idempotent (s : jsstring) : trim (trim s) = trim s.
Proof.
  destruct (trim s) as [|c t] eqn:E; [reflexivity|].
  pose proof (trim_head s c t E) as Hc.
  unfold trim at 1. unfold trimStart. cbn [dropWhile]. rewrite Hc.
  rewrite <- E. unfold trim, trimEnd.
  rewrite rev_involutive, dropWhile_fixed. reflexivity.
Qed.

Example trim_keeps_inner_space :
  trim (lit " a  b ") = lit "a  b" /\ trim (lit "ab") = lit "ab".
Proof. split; reflexivity. Qed.

End TrimFacts.

(* ===================================================================== *)
(** ** [GroupChat]: more on sending *)
(* ===================================================================== *)

Module SendMore.
Import GroupChat Samples MoreSamples JSFacts TrimFacts.

(** The observations of a send that passes the guard. *)
Lemma handleSendMessage_accepted_trace (o : Oracle) (env : Env) (st : State) :
  sendRejected env st = false ->
  let replyData :=
    if isReplying (replyState st) then originalMessage (replyState st)
    else None in
  snd (exec o (handleSendMessage env st) st)
  = [Did (SetInputValue []); Did (SetSelectedImage None);
     Did (SetReplyState idleReply);
     CalledSendMessage (trim (inputValue st)) (selectedImage st) replyData]
    ++ snd (exec o (afterSend (sendMessage o (trim (inputValue st))
                                 (selectedImage st) replyData))
              (apply (SetReplyState idleReply)
                 (apply (SetSelectedImage None)
                    (apply (SetInputValue []) st)))).
Proof.
  intros Hr. unfold handleSendMessage. rewrite Hr. reflexivity.
Qed.

(** X6: Whatever [handleSendMessage] passes to [sendMessage] is trimmed text,
    free of white space at both ends, together with the image of the
    draft; the text is empty only when there is an image, and the reply
    target goes along only while replying. *)
Theorem handleSendMessage_sends_trimmed
    (o : Oracle) (env : Env) (st : State)
    (text : jsstring) (image : option SelectedImage)
    (reply : option OriginalMessage) :
  In (CalledSendMessage text image reply)
     (snd (exec o (handleSendMessage env st) st)) ->
  text = trim (inputValue st)
  /\ trim text = text
  /\ (forall c t, text = c :: t -> isWhiteSpace c = false)
  /\ (forall c t, text = t ++ [c] -> isWhiteSpace c = false)
  /\ image = selectedImage st
  /\ (text = [] -> image <> None)
  /\ (isReplying (replyState st) = false -> reply = None).
Proof.
  destruct (sendRejected env st) eqn:Hr.
  - unfold handleSendMessage. rewrite Hr. cbn. contradiction.
  - rewrite (handleSendMessage_accepted_trace o env st Hr). cbn zeta.
    intros Hin. apply in_app_or in Hin.
    assert (E : CalledSendMessage text image reply
                = CalledSendMessage (trim (inputValue st)) (selectedImage st)
                    (if isReplying (replyState st)
                     then originalMessage (replyState st) else None)).
    { destruct Hin as [Hin|Hin].
      - cbn in Hin. intuition congruence.
      - destruct (sendMessage o _ _ _) as [[]|]; cbn in Hin;
          intuition congruence. }
    inversion E; subst. clear E Hin.
    split; [reflexivity|]. split; [apply trim_idempotent|].
    split; [intros c t; apply trim_head|].
    split; [intros c t; apply trim_last|].
    split; [reflexivity|]. split.
    + intros Ht Hi. unfold sendRejected in Hr. rewrite Ht, Hi in Hr.
      cbn in Hr. discriminate.
    + intros Hrep. rewrite Hrep. reflexivity.
Qed.

Lemma handleSendMessage_sends_trimmed_witness :
  In (CalledSendMessage (lit "see this") (selectedImage stDraft)
        (originalMessage (replyState stDraft)))
     (snd (exec allResolve (handleSendMessage envBobWrote stDraft) stDraft))
  /\ trim (lit "see this") = lit "see this".
Proof.
  assert (Hin : In (CalledSendMessage (lit "see this") (selectedImage stDraft)
                      (originalMessage (replyState stDraft)))
                  (snd (exec allResolve (handleSendMessage envBobWrote stDraft)
                          stDraft))).
  { right. right. right. left. reflexivity. }
  split; [exact Hin|].
  exact (proj1 (proj2 (handleSendMessage_sends_trimmed allResolve envBobWrote
                         stDraft _ _ _ Hin))).
Defined.

(** X7: A draft of white space with an image attached is sent: the call carries
    the empty text and the image, and the draft is cleared. *)
Theorem handleSendMessage_image_only (o : Oracle) (env : Env) (st : State)
    (img : SelectedImage) :
  blank (inputValue st) = true ->
  selectedImage st = Some img ->
  loading env = false ->
  let replyData :=
    if isReplying (replyState st) then originalMessage (replyState st)
    else None in
  snd (prefix (handleSendMessage env st) st)
  = Some (CalledSendMessage [] (Some img) replyData)
  /\ selectedImage (fst (exec o (handleSendMessage env st) st)) = None
  /\ inputValue (fst (exec o (handleSendMessage env st) st)) = [].
Proof.
  intros Hb Hi Hl. cbn zeta.
  apply trim_nil_blank in Hb.
  assert (Hr : sendRejected env st = false).
  { unfold sendRejected. rewrite Hb, Hi, Hl. reflexivity. }
  unfold handleSendMessage. rewrite Hr, Hb, Hi.
  split; [reflexivity|]. cbn [exec].
  destruct (sendMessage o _ _ _) as [[]|]; split; reflexivity.
Qed.

Lemma handleSendMessage_image_only_witness :
  snd (prefix (handleSendMessage envBobWrote stImageOnly) stImageOnly)
  = Some (CalledSendMessage [] (Some picture) None).
Proof.
  apply (handleSendMessage_image_only allResolve envBobWrote stImageOnly
           picture); reflexivity.
Defined.



End SendMore.

(* ===================================================================== *)
(** ** [GroupChat]: more on scrolling *)
(* ===================================================================== *)

Module ScrollMore.
Import GroupChat GroupChatUI Samples MoreSamples ScrollSpec.


Lemma messagesChangedEffect_scrolls_witness :
  loadingMore envLoadingMore = true
  /\ In (Did (ScrollIntoView auto))
        (snd (exec allResolve
                (messagesChangedEffect envLoadingMore stScrolled Ret)
                stScrolled)).
Proof.
  split; [reflexivity|].
  apply (messagesChangedEffect_scrolls allResolve envLoadingMore stScrolled Ret);
    [discriminate | reflexivity].
Defined.

Lemma handleScroll_marks_seen_witness :
  In (Did (MarkAsSeen (lit "m2")))
     (snd (exec allResolve (handleScroll envNearBottom) initial))
  /\ ~ In (Did (MarkAsSeen (lit "m2")))
         (snd (exec allResolve (handleScroll envBobWrote) initial)).
Proof.
  split.
  - apply (proj2 (handleScroll_marks_seen allResolve envNearBottom initial
                    nearBottom (message "m2" "bob" "hi" None)
                    eq_refl eq_refl)).
    split; [reflexivity | reflexivity].
  - intros H.
    apply (proj1 (handleScroll_marks_seen allResolve envBobWrote initial
                    farFromBottom (message "m2" "bob" "hi" None)
                    eq_refl eq_refl)) in H.
    destruct H as [H _]. cbn in H. lia.
Defined.

(** X4: Without the anchor element nothing scrolls: the effects run on a growth
    of the list only raise [hasScrolledToBottom] (and do so although no
    scroll took place), and a timer that fires does nothing. *)
Theorem no_anchor_no_scroll (o : Oracle) (env : Env) (st : State) :
  endAnchor env = false ->
  exec o (onMessagesGrowth env st) st
  = (if (0 <? length (messages env))%nat
     then (apply (SetHasScrolledToBottom true) st,
           [Did (SetHasScrolledToBottom true)])
     else (st, []))
  /\ (forall t, exec o (runTask env t) st = (st, [])).
Proof.
  intros Ha. split.
  - unfold onMessagesGrowth, messagesChangedEffect, autoScrollEffect,
      scrollToBottom.
    rewrite Ha. destruct (0 <? length (messages env))%nat; cbn [andb orb].
    + rewrite orb_true_r.
      destruct (loadingMore env), (container env) as [c|],
        (last (messages env)) as [m|]; cbn [negb];
        try destruct (isNearBottom c || isOwnMessage env m); reflexivity.
    + reflexivity.
  - intros [b|b]; unfold runTask, scrollToBottom; rewrite Ha; reflexivity.
Qed.

Lemma no_anchor_no_scroll_witness :
  exec allResolve (onMessagesGrowth envNoAnchor initial) initial
  = (stScrolled, [Did (SetHasScrolledToBottom true)]).
Proof.
  apply (proj1 (no_anchor_no_scroll allResolve envNoAnchor initial eq_refl)).
Defined.

(** While older messages are loading the second effect stays silent. *)
Lemma autoScrollEffect_silent_loadingMore (o : Oracle) (env : Env)
    (st : State) :
  loadingMore env = true -> exec o (autoScrollEffect env Ret) st = (st, []).
Proof.
  intros Hl. unfold autoScrollEffect. rewrite Hl, andb_false_r. reflexivity.
Qed.

(** X3: [handleScroll] asks for older messages exactly when the container is
    scrolled to its very top, more messages exist and neither the first
    load nor a load of older messages is under way; it changes no cell. *)
Theorem handleScroll_loads_more (o : Oracle) (env : Env) (st : State) :
  (In (Did LoadMoreMessages) (snd (exec o (handleScroll env) st))
   <-> exists c, container env = Some c /\ scrollTop c = 0%Z
                 /\ hasMoreMessages env = true
                 /\ loadingMore env = false /\ loading env = false)
  /\ fst (exec o (handleScroll env) st) = st
  /\ (container env = None -> snd (exec o (handleScroll env) st) = []).
Proof.
  unfold handleScroll. destruct (container env) as [c|].
  - split; [|split; [|discriminate]].
    + destruct (Z.eqb_spec (scrollTop c) 0) as [Ht|Ht];
        destruct (hasMoreMessages env), (loadingMore env), (loading env);
        cbn [andb negb];
        (split;
         [ intros H;
           try (exists c; repeat split; (reflexivity || assumption));
           exfalso; revert H;
           destruct ((scrollHeight c - scrollTop c - clientHeight c <? 50)%Z
                     && isTabActive env && (0 <? length (messages env))%nat);
           try destruct (last (messages env)); cbn;
           intuition discriminate
         | intros (c' & Hc & Ht' & Hm & Hl & Hl');
           inversion Hc; subst c';
           try discriminate; try contradiction; try (left; reflexivity) ]).
    + destruct ((scrollTop c =? 0)%Z && hasMoreMessages env
                && negb (loadingMore env) && negb (loading env));
        destruct ((scrollHeight c - scrollTop c - clientHeight c <? 50)%Z
                  && isTabActive env && (0 <? length (messages env))%nat);
        try destruct (last (messages env)); reflexivity.
  - split; [|split; [reflexivity|reflexivity]].
    cbn. split; [contradiction|]. intros (c & Hc & _). discriminate.
Qed.

Example handleScroll_at_top :
  snd (exec allResolve (handleScroll envAtTop) initial) = [Did LoadMoreMessages]
  /\ snd (exec allResolve (handleScroll envLoadingMore) initial) = [].
Proof. split; reflexivity. Qed.

(** X5: The mount effect never scrolls by itself and changes no cell: it sets
    the four timers of 100, 300, 500 and 1000 ms, each to call
    [scrollToBottom('auto')], and marks the newest message as seen exactly
    when the tab is active and the list is not empty. *)
Theorem mountEffect_schedule (o : Oracle) (env : Env) (st : State) :
  fst (exec o (mountEffect env) st) = st
  /\ List.filter isScroll (snd (exec o (mountEffect env) st))
     = map (fun d => Did (SetTimeout (TaskScrollToBottom auto) d))
         [100; 300; 500; 1000]%nat
  /\ (forall k,
        In (Did (MarkAsSeen k)) (snd (exec o (mountEffect env) st))
        <-> isTabActive env = true
            /\ exists m, last (messages env) = Some m /\ id m = k).
Proof.
  unfold mountEffect, scrollAttempts. cbn [fold_right].
  destruct (isTabActive env) eqn:Hact; cbn [andb].
  - destruct (messages env) as [|m0 l] eqn:Hm.
    + cbn. split; [reflexivity|]. split; [reflexivity|].
      intros k. split.
      * intuition discriminate.
      * intros (_ & m & Hl & _). discriminate.
    + change (0 <? length (m0 :: l))%nat with true. cbn iota.
      destruct (last (m0 :: l)) as [m|] eqn:Hlast.
      * cbn. split; [reflexivity|]. split; [reflexivity|].
        intros k. split.
        -- intros H. split; [reflexivity|]. exists m.
           split; [reflexivity|]. intuition congruence.
        -- intros (_ & m' & Hm' & Hk). inversion Hm'; subst.
           do 4 right. left. reflexivity.
      * cbn. split; [reflexivity|]. split; [reflexivity|].
        intros k. split.
        -- intuition discriminate.
        -- intros (_ & m & Hl & _). discriminate.
  - cbn. split; [reflexivity|]. split; [reflexivity|].
    intros k. split.
    + intuition discriminate.
    + intros (H & _). discriminate.
Qed.

Example mountEffect_marks_latest :
  snd (exec allResolve (mountEffect envBobWrote) initial)
  = [Did (SetTimeout (TaskScrollToBottom auto) 100);
     Did (SetTimeout (TaskScrollToBottom auto) 300);
     Did (SetTimeout (TaskScrollToBottom auto) 500);
     Did (SetTimeout (TaskScrollToBottom auto) 1000);
     Did (MarkAsSeen (lit "m2"))].
Proof. reflexivity. Qed.

End ScrollMore.

(* ===================================================================== *)
(** ** [GroupChat]: more on visualizations *)
(* ===================================================================== *)

Module VisualizationMore.
Import GroupChat GroupChatUI Samples MoreSamples JSFacts ViewSpec.

(** X12: A run of [handleCreateVisualization] touches the entry of its own
    message id only; every other entry of the map, and every other cell,
    is as before. *)
Theorem handleCreateVisualization_frame (o : Oracle) (st : State)
    (k c k' : jsstring) :
  k' <> k ->
  let st' := fst (exec o (handleCreateVisualization k c) st) in
  visualizationStates st' !! k' = visualizationStates st !! k'
  /\ inputValue st' = inputValue st
  /\ selectedImage st' = selectedImage st
  /\ replyState st' = replyState st
  /\ searchResults st' = searchResults st
  /\ showSearchResults st' = showSearchResults st.
Proof.
  intros Hne. cbn zeta. cbn [handleCreateVisualization exec fst].
  destruct (generateVisualization o k c) as [[]|];
    cbn [afterGenerate exec fst apply visualizationStates inputValue
         selectedImage replyState searchResults showSearchResults];
    (split; [|repeat split]);
    rewrite !lookup_insert_ne by congruence; reflexivity.
Qed.

Lemma handleCreateVisualization_frame_witness :
  visualizationStates
    (fst (exec allReject (handleCreateVisualization (lit "m1") (lit "hello"))
            stLocalContent)) !! lit "m2"
  = Some (mkVizState false (Some (lit "<svg/>")) true).
Proof.
  rewrite (proj1 (handleCreateVisualization_frame allReject stLocalContent
                    (lit "m1") (lit "hello") (lit "m2")
                    ltac:(discriminate))).
  reflexivity.
Defined.

(** X13: A generation that fails is not reported: the run consists of the two
    writes around the call, and [setError] is never called. *)
Theorem handleCreateVisualization_failure_silent (o : Oracle) (st : State)
    (k c : jsstring) :
  generateVisualization o k c = Rejected ->
  snd (exec o (handleCreateVisualization k c) st)
  = [Did (UpdateVisualizationStates k (mkVizState true None false));
     CalledGenerateVisualization k c;
     Did (UpdateVisualizationStates k (mkVizState false None false))]
  /\ (forall msg, ~ In (Did (SetError msg))
                      (snd (exec o (handleCreateVisualization k c) st))).
Proof.
  intros Hr. cbn [handleCreateVisualization exec fst snd]. rewrite Hr.
  split; [reflexivity|].
  intros msg H. cbn in H. intuition discriminate.
Qed.

Lemma handleCreateVisualization_failure_silent_witness :
  ~ In (Did (SetError (Some sendErrorText)))
       (snd (exec allReject (handleCreateVisualization (lit "m2") (lit "hi"))
               initial)).
Proof.
  apply (proj2 (handleCreateVisualization_failure_silent allReject initial
                  (lit "m2") (lit "hi") eq_refl)).
Defined.

(** After a settlement the entry is the one of that settlement, whatever
    the state the handler resumes in: of two overlapping requests for one
    message the one that settles last decides. *)
Theorem afterGenerate_last_wins (o : Oracle) (k : jsstring)
    (r1 r2 : Outcome unit) (st : State) :
  visualizationStates
    (fst (exec o (afterGenerate k r2) (fst (exec o (afterGenerate k r1) st))))
  !! k
  = Some (match r2 with
          | Resolved _ => mkVizState false (Some generated) true
          | Rejected => mkVizState false None false
          end).
Proof.
  destruct r1 as [[]|], r2 as [[]|];
    cbn [afterGenerate exec fst apply visualizationStates];
    apply lookup_insert_eq.
Qed.

(** X14: The render branch shows content only for a current visualization
    with a non-empty id, and never shows empty content or the placeholder;
    what it shows is the payload of the message when that is present, and
    the content held by the visualization hook otherwise. *)
Theorem visualizationSurface_sound (env : Env) (c : jsstring) :
  visualizationSurface env = Some c ->
  c <> [] /\ c <> generated
  /\ exists k, currentVisualization env = Some k /\ k <> []
       /\ (persistedVisualization env k = Some c
           \/ (truthyOpt (persistedVisualization env k) = false
               /\ getVisualization env k = Some c)).
Proof.
  unfold visualizationSurface.
  destruct (currentVisualization env) as [k|]; [|discriminate].
  destruct k as [|x k]; [discriminate|]. cbn [truthy].
  assert (Hhook : truthyOpt (persistedVisualization env (x :: k)) = false ->
    match getVisualization env (x :: k) with
    | Some c0 => if truthy c0 && negb (JS.eqb c0 generated) then Some c0 else None
    | None => None
    end = Some c ->
    c <> [] /\ c <> generated
    /\ exists k0, Some (x :: k) = Some k0 /\ k0 <> []
        /\ (persistedVisualization env k0 = Some c
            \/ (truthyOpt (persistedVisualization env k0) = false
                /\ getVisualization env k0 = Some c))).
  { intros Hp. destruct (getVisualization env (x :: k)) as [d|] eqn:Hd;
      [|discriminate].
    destruct d as [|y d]; [discriminate|]. cbn [truthy andb].
    unfold JS.eqb. case_bool_decide as Hg; cbn [negb]; [discriminate|].
    intros E. inversion E; subst.
    split; [discriminate|]. split; [exact Hg|].
    exists (x :: k). split; [reflexivity|]. split; [discriminate|].
    right. split; [exact Hp | exact Hd]. }
  destruct (persistedVisualization env (x :: k)) as [d|] eqn:Hpv.
  - destruct d as [|y d]; cbn [truthyOpt truthy].
    + apply Hhook. reflexivity.
    + cbn [andb]. unfold JS.eqb.
      case_bool_decide as Hg; cbn [negb]; [discriminate|].
      intros E. inversion E; subst.
      split; [discriminate|]. split; [exact Hg|].
      exists (x :: k). split; [reflexivity|]. split; [discriminate|].
      left. exact Hpv.
  - cbn [truthyOpt]. apply Hhook. reflexivity.
Qed.

Lemma visualizationSurface_sound_witness :
  visualizationSurface envViewing = Some (lit "<html>chart</html>")
  /\ lit "<html>chart</html>" <> generated.
Proof.
  assert (H : visualizationSurface envViewing = Some (lit "<html>chart</html>"))
    by reflexivity.
  split; [exact H|].
  exact (proj1 (proj2 (visualizationSurface_sound envViewing _ H))).
Defined.

Lemma visualizationSurface_prefers_payload_witness :
  visualizationSurface envViewing = Some (lit "<html>chart</html>")
  /\ getVisualization envViewing (lit "m1") = Some (lit "<svg/>").
Proof.
  split; [|reflexivity].
  rewrite (visualizationSurface_prefers_payload envViewing (lit "m1")
             (lit "<html>chart</html>") eq_refl ltac:(discriminate)
             eq_refl ltac:(discriminate)).
  reflexivity.
Defined.

End VisualizationMore.

(* ===================================================================== *)
(** ** [GroupChat]: more on replies *)
(* ===================================================================== *)

Module ReplyMore.
Import GroupChat GroupChatUI Samples MoreSamples JSFacts ReplySpec.

(** X9: The snippet never exceeds 103 code units and agrees with the content on
    its first 100; the original is kept whole, under the id of the reply
    target. *)
Theorem handleReply_bounds (o : Oracle) (st : State) (k c u t : jsstring) :
  let r := replyState (fst (exec o (handleReply k c u t) st)) in
  isReplying r = true
  /\ messageId r = Some k
  /\ originalMessage r = Some (mkOriginalMessage k c u t)
  /\ exists s, messageSnippet r = Some s
       /\ (length s <= 103)%nat
       /\ firstn 100 s = firstn 100 c.
Proof.
  cbn zeta. rewrite handleReply_state.
  cbn [isReplying messageId originalMessage messageSnippet].
  split; [reflexivity|]. split; [reflexivity|]. split; [reflexivity|].
  destruct (Nat.ltb_spec 100 (length c)) as [H|H].
  - eexists. split; [reflexivity|]. split.
    + rewrite length_app, firstn_length_le by lia.
      change (length ellipsis) with 3%nat. lia.
    + rewrite firstn_app, firstn_firstn, firstn_length_le by lia.
      rewrite Nat.min_id, Nat.sub_diag. cbn [firstn]. apply app_nil_r.
  - exists c. split; [reflexivity|]. split; [lia | reflexivity].
Qed.

(** X10: Starting a reply while another is active replaces it; cancelling
    returns the reply cell to idle and leaves the other cells alone, so
    that from an idle state reply-then-cancel is the identity. *)
Theorem reply_replace_and_cancel (o : Oracle) (st : State)
    (k1 c1 u1 t1 k2 c2 u2 t2 : jsstring) :
  fst (exec o (handleReply k2 c2 u2 t2)
         (fst (exec o (handleReply k1 c1 u1 t1) st)))
  = fst (exec o (handleReply k2 c2 u2 t2) st)
  /\ fst (exec o cancelReply (fst (exec o (handleReply k1 c1 u1 t1) st)))
     = apply (SetReplyState idleReply) st
  /\ (replyState st = idleReply ->
      fst (exec o cancelReply (fst (exec o (handleReply k1 c1 u1 t1) st)))
      = st).
Proof.
  split; [reflexivity|]. split; [reflexivity|].
  intros Hidle. destruct st. cbn in *. rewrite Hidle. reflexivity.
Qed.

Lemma reply_replace_and_cancel_witness :
  fst (exec allResolve cancelReply
         (fst (exec allResolve
                 (handleReply (lit "m2") (lit "hi") (lit "bob") (lit "now"))
                 stLocalContent)))
  = stLocalContent.
Proof.
  apply (proj2 (proj2 (reply_replace_and_cancel allResolve stLocalContent
     (lit "m2") (lit "hi") (lit "bob") (lit "now")
     (lit "m2") (lit "hi") (lit "bob") (lit "now")))).
  reflexivity.
Defined.

End ReplyMore.

(* ===================================================================== *)
(** ** [GroupChat]: the search box, the file picker, the summarize modal *)
(* ===================================================================== *)

Module PanelsSpec.
Import GroupChat GroupChatUI Samples MoreSamples JSFacts SearchSpec.

(** X15: A key press in the search box starts a search exactly when the key is
    Enter and the box is not blank; the query is the content of the box as
    typed, white space included. *)
Theorem onSearchKeyPress_searches (o : Oracle) (st : State)
    (key q : jsstring) :
  In (CalledSearchMessages q) (snd (exec o (onSearchKeyPress key st) st))
  <-> key = lit "Enter" /\ blank (searchInput st) = false
      /\ q = searchInput st.
Proof.
  unfold onSearchKeyPress, JS.eqb. rewrite truthy_trim.
  case_bool_decide as Hk; destruct (blank (searchInput st)) eqn:Hb;
    cbn [andb negb].
  - cbn. split; [contradiction|]. intros (_ & H & _). discriminate.
  - rewrite (handleSearch_nonblank _ Hb). cbn [exec snd]. split.
    + intros [H|[H|H]]; [discriminate| |].
      * inversion H. auto.
      * destruct (searchMessages o (searchInput st)); cbn in H;
          intuition discriminate.
    + intros (_ & _ & ->). right. left. reflexivity.
  - cbn. split; [contradiction|]. intros (H & _). contradiction.
  - cbn. split; [contradiction|]. intros (H & _). contradiction.
Qed.

Example onSearchKeyPress_enter :
  snd (prefix (onSearchKeyPress (lit "Enter")
                 (apply (SetSearchInput (lit " hi ")) initial))
         (apply (SetSearchInput (lit " hi ")) initial))
  = Some (CalledSearchMessages (lit " hi "))
  /\ exec allResolve (onSearchKeyPress (lit "a")
                        (apply (SetSearchInput (lit " hi ")) initial))
       initial = (initial, []).
Proof. split; reflexivity. Qed.

(** X16: Closing the results after a search, however the search ended, leaves
    no results, the modal hidden, the search box empty and the busy flag
    down; the draft, the reply target and the visualizations are as before
    the search. *)
Theorem search_then_close (o : Oracle) (st : State) (q : jsstring) :
  blank q = false ->
  fst (exec o closeSearchResults (fst (exec o (handleSearch q) st)))
  = mkState (inputValue st) (searchQuery st) [] false (selectedImage st)
      (replyState st) (visualizationStates st) (hasScrolledToBottom st)
      (showTeamMembers st) (showSummarizeOptions st) false [].
Proof.
  intros Hb. rewrite (handleSearch_nonblank q Hb). cbn [exec fst].
  destruct (searchMessages o q); reflexivity.
Qed.

Lemma search_then_close_witness :
  fst (exec allResolve closeSearchResults
         (fst (exec allResolve (handleSearch (lit "hi")) initial)))
  = initial.
Proof.
  rewrite (search_then_close allResolve initial (lit "hi") eq_refl).
  reflexivity.
Defined.

(** X17: A picked file is read exactly when its size is at most 10485760 bytes;
    a larger one is refused with the alert, and without a file nothing
    happens. The image set when the read completes carries the file's name
    and size, so it is within the limit as well. *)
Theorem handleImageUpload_limit (file : option File) :
  (forall f, handleImageUpload file = UploadRead f
             <-> file = Some f /\ (file_size f <= 10485760)%N)
  /\ (handleImageUpload file = UploadAlert fileTooLargeText
      <-> exists f, file = Some f /\ (10485760 < file_size f)%N)
  /\ (handleImageUpload file = UploadNothing <-> file = None)
  /\ (forall o st f result,
        handleImageUpload file = UploadRead f ->
        selectedImage (fst (exec o (readerOnload f result) st))
        = Some (mkSelectedImage result (file_name f) (file_size f))).
Proof.
  unfold handleImageUpload.
  change maxImageBytes with 10485760%N.
  destruct file as [f0|].
  - destruct (N.ltb_spec 10485760 (file_size f0)) as [H|H].
    + split; [|split; [|split]].
      * intros f. split; [discriminate|]. intros [E Hle].
        inversion E; subst. lia.
      * split; [|reflexivity]. intros _. exists f0. auto.
      * split; discriminate.
      * discriminate.
    + split; [|split; [|split]].
      * intros f. split.
        -- intros E. inversion E; subst. auto.
        -- intros [E _]. inversion E; subst. reflexivity.
      * split; [discriminate|]. intros (f & E & Hlt).
        inversion E; subst. lia.
      * split; discriminate.
      * reflexivity.
  - split; [|split; [|split]].
    + intros f. split; [discriminate|]. intros [E _]. discriminate.
    + split; [discriminate|]. intros (f & E & _). discriminate.
    + split; reflexivity.
    + discriminate.
Qed.

Example handleImageUpload_boundary :
  handleImageUpload (Some limitFile) = UploadRead limitFile
  /\ handleImageUpload (Some hugeFile) = UploadAlert fileTooLargeText
  /\ handleImageUpload None = UploadNothing.
Proof. repeat split. Qed.

(** X18: Each button of the summarize modal hides the modal and then sends its
    prompt as a message without image or reply target. Unlike
    [handleSendMessage] it neither looks at [loading] nor touches the
    draft, and a rejected send is not reported. *)
Theorem handleSummarizeWithPeriod_sends (o : Oracle) (st : State)
    (p : Period) :
  exists prompt,
    prompts (periodKey p) = Some prompt
    /\ prompt <> []
    /\ exec o (handleSummarizeWithPeriod (periodKey p)) st
       = (apply (SetShowSummarizeOptions false) st,
          [Did (SetShowSummarizeOptions false);
           CalledSendMessage prompt None None]).
Proof.
  destruct p; eexists; (split; [reflexivity|]);
    (split; [discriminate|]); reflexivity.
Qed.

(** A period the table does not list only hides the modal. *)
Lemma handleSummarizeWithPeriod_unknown (o : Oracle) (st : State)
    (period : jsstring) :
  prompts period = None ->
  exec o (handleSummarizeWithPeriod period) st
  = (apply (SetShowSummarizeOptions false) st,
     [Did (SetShowSummarizeOptions false)]).
Proof.
  intros H. unfold handleSummarizeWithPeriod. rewrite H. reflexivity.
Qed.

End PanelsSpec.

(* ===================================================================== *)
(** ** [MainContainer]: more on its callbacks *)
(* ===================================================================== *)

Module MainContainerMore.
Import MainContainer MainContainerView.

(** X19: Whenever a callback changes the chat mode, no open sidebar is on
    screen afterwards: either the sidebar is not mounted, or the effect has
    just closed it. *)
Theorem no_open_sidebar_after_mode_change (e : Event) (st : State) :
  chatMode (handle e st) <> chatMode st ->
  sidebarRendered (handle e st) && sidebarOpen (handle e st) = false.
Proof.
  destruct st as [so cm cl sn tm].
  destruct e as [m| | | | | | | | |]; try destruct m; destruct cm;
    intros H; compute in H |- *; try reflexivity; congruence.
Qed.

Lemma no_open_sidebar_after_mode_change_witness :
  sidebarRendered (handle (ModeChange team) (mkState true private None false false))
  && sidebarOpen (handle (ModeChange team) (mkState true private None false false))
  = false
  /\ sidebarOpen (handle (SwitchToPrivateChat [49%N])
                    (mkState true team None false false)) = false.
Proof.
  split.
  - apply (no_open_sidebar_after_mode_change (ModeChange team)
             (mkState true private None false false)).
    discriminate.
  - pose proof (no_open_sidebar_after_mode_change (SwitchToPrivateChat [49%N])
                  (mkState true team None false false)
                  ltac:(discriminate)) as H.
    exact H.
Defined.

(** X20: Only the mode toggle and the switch to a private chat change the mode;
    every other callback leaves the mounted view as it is. *)
Theorem other_callbacks_keep_mode (e : Event) (st : State) :
  changesMode e = false ->
  chatMode (handle e st) = chatMode st
  /\ content (handle e st) = content st.
Proof.
  intros He. destruct st as [so cm cl sn tm].
  destruct e; try discriminate; destruct cm; compute; split; reflexivity.
Qed.

Lemma other_callbacks_keep_mode_witness :
  chatMode (handle (LoadConversation [49%N])
              (mkState true private None false false)) = private.
Proof.
  apply (other_callbacks_keep_mode (LoadConversation [49%N])
           (mkState true private None false false) eq_refl).
Defined.

(** X21: Switching to a private chat from the team view mounts the private view
    with the conversation to load and the sidebar closed; the team menu
    flag is left as it was. *)
Theorem handleSwitchToPrivateChat_result (c : jsstring) (st : State) :
  chatMode st <> private ->
  handleSwitchToPrivateChat c st
  = mkState false private (Some c) (shouldStartNewChat st) (showTeamMenu st)
  /\ content (handleSwitchToPrivateChat c st) = ChatContainer.
Proof.
  intros Hne. destruct st as [so cm cl sn tm].
  destruct cm; compute in Hne |- *; try congruence; split; reflexivity.
Qed.

Lemma handleSwitchToPrivateChat_result_witness :
  handleSwitchToPrivateChat [49%N] (mkState true team None false true)
  = mkState false private (Some [49%N]) false true.
Proof.
  apply (handleSwitchToPrivateChat_result [49%N]
           (mkState true team None false true)).
  discriminate.
Defined.

(** X22: Picking a conversation in the sidebar and the chat view reporting it
    loaded brings [conversationToLoad] back to null with the sidebar closed;
    the same holds for starting a new chat and its acknowledgement. *)
Theorem load_then_loaded (c : jsstring) (st : State) :
  conversationToLoad st = None -> shouldStartNewChat st = false ->
  onConversationLoaded (handleLoadConversation c st) = setSidebarOpen false st
  /\ onNewChatStarted (handleStartNewConversation st) = setSidebarOpen false st.
Proof.
  intros Hc Hn. destruct st as [so cm cl sn tm]. cbn in Hc, Hn. subst.
  destruct cm; compute; split; reflexivity.
Qed.

Lemma load_then_loaded_witness :
  onConversationLoaded
    (handleLoadConversation [49%N] (mkState true private None false false))
  = mkState false private None false false.
Proof.
  apply (load_then_loaded [49%N] (mkState true private None false false));
    reflexivity.
Defined.

(** The two toggles undo themselves. *)
Theorem toggles_involutive (st : State) :
  handleToggleTeamMenu (handleToggleTeamMenu st) = st
  /\ onToggleSidebar (onToggleSidebar st) = st.
Proof.
  destruct st as [so cm cl sn tm].
  destruct cm, so, tm; compute; split; reflexivity.
Qed.

End MainContainerMore.

(* ===================================================================== *)
(** ** [GroupChat]: what holds in every reachable state *)
(* ===================================================================== *)

Module EventLoopSpec.
Import GroupChat GroupChatUI EventLoop Samples MoreSamples JSFacts ViewSpec.

Lemma snippet_length (c : jsstring) :
  (length (if (100 <? length c)%nat
           then substring c 0 100 ++ ellipsis else c) <= 103)%nat.
Proof.
  destruct (Nat.ltb_spec 100 (length c)) as [H|H]; [|lia].
  rewrite substring_prefix, length_app, firstn_length_le by lia.
  change (length ellipsis) with 3%nat. lia.
Qed.

Lemma apply_ok (a : Action) (st : State) :
  actionOk a -> stateOk st -> stateOk (apply a st).
Proof.
  intros Ha (Hv & Hr & Hi).
  destruct a; cbn in Ha |- *; unfold stateOk; cbn; auto.
  split; [|auto]. apply map_Forall_insert_2; assumption.
Qed.

Lemma launch_ok (p : Prog) :
  progOk p -> forall st, stateOk st ->
  stateOk (fst (launch p st)) /\ Forall pendingOk (snd (launch p st)).
Proof.
  induction p as [|a k IH|x i r k _|q k _|m x k _]; cbn [progOk launch].
  - intros _ st Hst. split; [exact Hst | constructor].
  - intros [Ha Hk] st Hst.
    destruct (IH Hk (apply a st) (apply_ok a st Ha Hst)) as [H1 H2].
    cbn [fst snd]. split; [exact H1|].
    destruct a; try exact H2. constructor; [exact I | exact H2].
  - intros Hk st Hst. split; [exact Hst|]. repeat constructor. exact Hk.
  - intros Hk st Hst. split; [exact Hst|]. repeat constructor. exact Hk.
  - intros Hk st Hst. split; [exact Hst|]. repeat constructor. exact Hk.
Qed.

Lemma scrollToBottom_ok (env : Env) (b : Behavior) (k : Prog) :
  progOk k -> progOk (scrollToBottom env b k).
Proof.
  intros Hk. unfold scrollToBottom.
  destruct (endAnchor env), (isPWA env); cbn; auto.
Qed.

Lemma runTask_ok (env : Env) (t : Task) : progOk (runTask env t).
Proof.
  destruct t; cbn; [apply scrollToBottom_ok; exact I|].
  destruct (endAnchor env); cbn; auto.
Qed.

Lemma afterSearch_ok (r : Outcome (list GroupMessage)) : progOk (afterSearch r).
Proof. destruct r; cbn; auto. Qed.

Lemma handleSearch_ok (q : jsstring) : progOk (handleSearch q).
Proof.
  unfold handleSearch. destruct (negb (truthy (trim q))); cbn; auto.
  split; [exact I|]. apply afterSearch_ok.
Qed.

Lemma handleSummarizeWithPeriod_ok (period : jsstring) :
  progOk (handleSummarizeWithPeriod period).
Proof.
  unfold handleSummarizeWithPeriod. cbn [progOk actionOk]. split; [exact I|].
  destruct (prompts period) as [x|]; [destruct (truthy x)|]; cbn; auto.
Qed.

(** Every statement of every handler and effect writes only well-formed
    values. *)
Lemma program_ok (env : Env) (st : State) (e : UIEvent) :
  progOk (program env st e).
Proof.
  destruct e as [ | | |v| |file| |k c u t| |k c|k d|v|key| | | | | |p| | ];
    cbn [program].
  - unfold mountEffect, scrollAttempts. cbn [fold_right progOk actionOk].
    repeat split.
    destruct (isTabActive env && (0 <? length (messages env))%nat);
      [destruct (last (messages env))|]; cbn; auto.
  - unfold onMessagesGrowth, messagesChangedEffect.
    assert (Ha : progOk (autoScrollEffect env Ret)).
    { unfold autoScrollEffect.
      destruct ((0 <? length (messages env))%nat && negb (loadingMore env));
        [|exact I].
      destruct (container env) as [c|]; [|exact I].
      destruct (last (messages env)) as [m|]; [|exact I].
      destruct (isNearBottom c || isOwnMessage env m); [|exact I].
      apply scrollToBottom_ok. exact I. }
    destruct (0 <? length (messages env))%nat; [|exact Ha].
    destruct (negb (hasScrolledToBottom st) || true); [|exact Ha].
    apply scrollToBottom_ok. cbn. auto.
  - unfold handleScroll. destruct (container env) as [c|]; [|exact I].
    destruct ((scrollTop c =? 0)%Z && hasMoreMessages env
              && negb (loadingMore env) && negb (loading env));
      destruct ((scrollHeight c - scrollTop c - clientHeight c <? 50)%Z
                && isTabActive env && (0 <? length (messages env))%nat);
      try destruct (last (messages env)); cbn; auto.
  - cbn. auto.
  - unfold handleSendMessage. destruct (sendRejected env st); cbn; [exact I|].
    repeat split. intros [[]|]; cbn; auto.
  - exact I.
  - cbn. auto.
  - unfold handleReply. cbn [progOk actionOk]. split; [|exact I].
    unfold replyWellFormed. cbn [isReplying messageId messageSnippet
                                 originalMessage orig_id].
    split; [reflexivity | apply snippet_length].
  - cbn. auto.
  - cbn. split; [left; reflexivity|].
    intros [[]|]; cbn; split; auto.
    + right. left. reflexivity.
    + right. right. reflexivity.
  - unfold handleViewVisualization.
    destruct (truthyOpt (persistedVisualization env k));
      [|destruct (localVisualizationUsable st k)]; cbn; auto.
  - cbn. auto.
  - unfold onSearchKeyPress.
    destruct (JS.eqb key (lit "Enter") && truthy (trim (searchInput st)));
      [apply handleSearch_ok | exact I].
  - cbn. auto.
  - cbn. auto.
  - cbn. auto.
  - cbn. auto.
  - cbn. auto.
  - apply handleSummarizeWithPeriod_ok.
  - cbn. auto.
  - cbn. auto.
Qed.

Lemma resume_ok (p : Pending) (s : Settlement) (prog : Prog) :
  pendingOk p -> resume p s = Some prog -> progOk prog.
Proof.
  destruct p, s; cbn; intros Hp E; inversion E; subst; auto.
  - cbn. auto.
  - apply runTask_ok.
Qed.

Lemma initialConfig_ok : configOk initialConfig.
Proof.
  split; [|constructor]. split; [apply map_Forall_empty|].
  split; exact I.
Qed.

Lemma move_ok (m : Move) (c : Config) : configOk c -> configOk (move m c).
Proof.
  intros [Hst Hp]. destruct m as [env e|i s]; cbn [move].
  - assert (Hgen : configOk
      (let r := launch (program env (cells c) e) (cells c) in
       mkConfig (fst r) (pending c ++ snd r))).
    { destruct (launch_ok _ (program_ok env (cells c) e) _ Hst) as [H1 H2].
      split; [exact H1|]. cbn. apply Forall_app. split; assumption. }
    destruct e; try exact Hgen. unfold fire, handleImageUpload.
    destruct file as [f|]; [|split; assumption].
    destruct (N.ltb_spec maxImageBytes (file_size f)) as [H|H];
      [split; assumption|].
    split; [exact Hst|]. cbn. apply Forall_app. split; [exact Hp|].
    repeat constructor. exact H.
  - unfold settle. destruct (pending c !! i) as [p|] eqn:Hi;
      [|split; assumption].
    destruct (resume p s) as [prog|] eqn:Hr; [|split; assumption].
    pose proof (Forall_lookup_1 _ _ _ _ Hp Hi) as Hok.
    destruct (launch_ok _ (resume_ok p s prog Hok Hr) _ Hst) as [H1 H2].
    split; [exact H1|]. cbn. apply Forall_app. split; [|exact H2].
    apply Forall_delete. exact Hp.
Qed.

Lemma play_ok (ms : list Move) (c : Config) :
  configOk c -> configOk (play ms c).
Proof.
  revert c. induction ms as [|m ms IH]; intros c Hc; [exact Hc|].
  cbn. apply IH, move_ok, Hc.
Qed.

Lemma reachable_ok (ms : list Move) : stateOk (cells (play ms initialConfig)).
Proof. apply (play_ok ms initialConfig initialConfig_ok). Qed.

Lemma vizShape_consistent (v : VizState) :
  vizShape v -> isGenerating v && hasVisualization v = false.
Proof. intros [->|[->| ->]]; reflexivity. Qed.

Lemma vizShape_unusable (st : State) (k : jsstring) :
  map_Forall (fun _ v => vizShape v) (visualizationStates st) ->
  localVisualizationUsable st k = false.
Proof.
  intros H. unfold localVisualizationUsable.
  destruct (visualizationStates st !! k) as [v|] eqn:E; [|reflexivity].
  destruct (H k v E) as [->|[->| ->]]; reflexivity.
Qed.

(** X23: However handlers, effects, promise settlements, file reads and timers
    interleave after the mount, every entry of the visualization map is one
    of the three objects [handleCreateVisualization] writes; in particular
    no entry has [isGenerating] and [hasVisualization] both set, and
    [hasVisualization] is set exactly on entries whose content is the
    placeholder. *)
Theorem reachable_visualization_entries (ms : list Move) :
  let m := visualizationStates (cells (play ms initialConfig)) in
  vizConsistent m
  /\ map_Forall (fun _ v => vizShape v) m
  /\ map_Forall (fun _ v => hasVisualization v = true
                            <-> content v = Some generated) m.
Proof.
  cbn zeta. destruct (reachable_ok ms) as (Hv & _).
  split; [|split; [exact Hv|]].
  - intros k v E. apply vizShape_consistent, (Hv k v E).
  - intros k v E. destruct (Hv k v E) as [->|[->| ->]]; cbn;
      split; congruence.
Qed.

(** X24: In every reachable state the local entry never makes a visualization
    viewable: [handleViewVisualization] calls [showVisualization] exactly
    when the message carries a payload, also right after a generation the
    component itself reported as done. *)
Theorem reachable_view_needs_payload (ms : list Move) (o : Oracle)
    (env : Env) (k : jsstring) (visualizationData : option jsstring) :
  let st := cells (play ms initialConfig) in
  exec o (handleViewVisualization env st k visualizationData) st
  = (st, if truthyOpt (persistedVisualization env k)
         then [Did (ShowVisualization k)] else []).
Proof.
  cbn zeta. destruct (reachable_ok ms) as (Hv & _).
  unfold handleViewVisualization.
  rewrite (vizShape_unusable _ k Hv).
  destruct (truthyOpt (persistedVisualization env k)); reflexivity.
Qed.

Example view_after_generation :
  let ms := [Fire envBobWrote (CreateVisualizationPressed (lit "m2") (lit "hi"));
             Settle 0 (GenerateSettled (Resolved tt))] in
  visualizationStates (cells (play ms initialConfig)) !! lit "m2"
  = Some (mkVizState false (Some generated) true)
  /\ snd (exec allResolve
            (handleViewVisualization envBobWrote (cells (play ms initialConfig))
               (lit "m2") None)
            (cells (play ms initialConfig))) = [].
Proof. split; vm_compute; reflexivity. Qed.

(** X25: In every reachable state the reply cell is idle with its other fields
    null, or names a target whose id is that of the kept original and
    holds a snippet of at most 103 code units. *)
Theorem reachable_reply_well_formed (ms : list Move) :
  let r := replyState (cells (play ms initialConfig)) in
  (isReplying r = false ->
   messageId r = None /\ messageSnippet r = None /\ originalMessage r = None)
  /\ (isReplying r = true ->
      exists k s om,
        messageId r = Some k /\ messageSnippet r = Some s
        /\ originalMessage r = Some om
        /\ orig_id om = k /\ (length s <= 103)%nat).
Proof.
  cbn zeta. destruct (reachable_ok ms) as (_ & Hr & _).
  unfold replyWellFormed in Hr.
  destruct (replyState (cells (play ms initialConfig))) as [b mi sn om].
  cbn in Hr |- *.
  destruct b, mi as [k|], sn as [s|], om as [om|]; try contradiction;
    split; intros E; try discriminate.
  - exists k, s, om. destruct Hr. auto.
  - auto.
Qed.

Lemma reachable_reply_well_formed_witness :
  messageId
    (replyState
       (cells (play [Fire envBobWrote
                       (ReplyPressed (lit "m2") (lit "hi") (lit "bob")
                          (lit "now"));
                     Fire envBobWrote (InputChanged (lit "yes"));
                     Fire envBobWrote SendPressed]
                 initialConfig))) = None
  /\ exists k s om,
       messageId
         (replyState
            (cells (play [Fire envBobWrote
                            (ReplyPressed (lit "m2") (lit "hi") (lit "bob")
                               (lit "now"))]
                      initialConfig))) = Some k
       /\ messageSnippet
            (replyState
               (cells (play [Fire envBobWrote
                               (ReplyPressed (lit "m2") (lit "hi") (lit "bob")
                                  (lit "now"))]
                         initialConfig))) = Some s
       /\ originalMessage
            (replyState
               (cells (play [Fire envBobWrote
                               (ReplyPressed (lit "m2") (lit "hi") (lit "bob")
                                  (lit "now"))]
                         initialConfig))) = Some om
       /\ orig_id om = k /\ (length s <= 103)%nat.
Proof.
  split.
  - apply (proj1 (reachable_reply_well_formed
                    [Fire envBobWrote
                       (ReplyPressed (lit "m2") (lit "hi") (lit "bob")
                          (lit "now"));
                     Fire envBobWrote (InputChanged (lit "yes"));
                     Fire envBobWrote SendPressed])).
    reflexivity.
  - apply (proj2 (reachable_reply_well_formed
                    [Fire envBobWrote
                       (ReplyPressed (lit "m2") (lit "hi") (lit "bob")
                          (lit "now"))])).
    reflexivity.
Defined.

(** X26: In every reachable state a selected image is at most 10485760 bytes:
    larger files never get past [handleImageUpload]. *)
Theorem reachable_image_within_limit (ms : list Move) (img : SelectedImage) :
  selectedImage (cells (play ms initialConfig)) = Some img ->
  (size img <= 10485760)%N.
Proof.
  intros E. destruct (reachable_ok ms) as (_ & _ & Hi).
  rewrite E in Hi. exact Hi.
Qed.

Lemma reachable_image_within_limit_witness :
  selectedImage
    (cells (play [Fire envBobWrote (FilePicked (Some limitFile));
                  Settle 0 (ReadLoaded (lit "data:image/png;base64,AAAA"))]
              initialConfig))
  = Some (mkSelectedImage (lit "data:image/png;base64,AAAA") (lit "b.png")
            10485760)
  /\ (10485760 <= 10485760)%N.
Proof.
  assert (E : selectedImage
    (cells (play [Fire envBobWrote (FilePicked (Some limitFile));
                  Settle 0 (ReadLoaded (lit "data:image/png;base64,AAAA"))]
              initialConfig))
    = Some (mkSelectedImage (lit "data:image/png;base64,AAAA") (lit "b.png")
              10485760)) by reflexivity.
  split; [exact E|].
  exact (reachable_image_within_limit _ _ E).
Defined.

Example huge_file_never_selected :
  play [Fire envBobWrote (FilePicked (Some hugeFile));
        Settle 0 (ReadLoaded (lit "data:image/png;base64,AAAA"))]
    initialConfig = initialConfig.
Proof. reflexivity. Qed.

(** X27: Two requests for one message can be in flight together: after the
    second request both continuations are pending, the calls made were for
    the first and for the second content, and the entry is the generating
    one. Whatever settles is written over the entry: when the second
    request settles first, its outcome is recorded while the first is still
    pending, and the later settlement of the first replaces it, so that a
    first request that fails after the second has succeeded leaves the
    failed entry. *)
Theorem overlapping_generations (env1 env2 : Env) (k c1 c2 : jsstring)
    (r1 r2 : Outcome unit) :
  let entry (r : Outcome unit) :=
    match r with Resolved _ => ready | Rejected => failed end in
  let one := move (Fire env1 (CreateVisualizationPressed k c1)) initialConfig in
  let both := move (Fire env2 (CreateVisualizationPressed k c2)) one in
  let second := move (Settle 1 (GenerateSettled r2)) both in
  let first := move (Settle 0 (GenerateSettled r1)) second in
  snd (prefix (program env1 (cells initialConfig)
                 (CreateVisualizationPressed k c1)) (cells initialConfig))
  = Some (CalledGenerateVisualization k c1)
  /\ pending one = [PendingGenerate (afterGenerate k)]
  /\ snd (prefix (program env2 (cells one)
                    (CreateVisualizationPressed k c2)) (cells one))
     = Some (CalledGenerateVisualization k c2)
  /\ pending both
     = [PendingGenerate (afterGenerate k); PendingGenerate (afterGenerate k)]
  /\ visualizationStates (cells both) !! k = Some starting
  /\ pending second = [PendingGenerate (afterGenerate k)]
  /\ visualizationStates (cells second) !! k = Some (entry r2)
  /\ pending first = []
  /\ visualizationStates (cells first) !! k = Some (entry r1)
  /\ first = play [Fire env1 (CreateVisualizationPressed k c1);
                   Fire env2 (CreateVisualizationPressed k c2);
                   Settle 1 (GenerateSettled r2);
                   Settle 0 (GenerateSettled r1)] initialConfig.
Proof.
  cbn zeta.
  split; [reflexivity|]. split; [reflexivity|]. split; [reflexivity|].
  split; [reflexivity|]. split; [apply lookup_insert_eq|].
  split; [destruct r2 as [[]|]; reflexivity|].
  split; [destruct r2 as [[]|]; apply lookup_insert_eq|].
  split; [destruct r1 as [[]|], r2 as [[]|]; reflexivity|].
  split; [|reflexivity].
  destruct r1 as [[]|], r2 as [[]|]; apply lookup_insert_eq.
Qed.

Lemma overlapping_generations_witness :
  let both := play [Fire envBobWrote
                      (CreateVisualizationPressed (lit "m2") (lit "hi"));
                    Fire envBobWrote
                      (CreateVisualizationPressed (lit "m2") (lit "hi"))]
                initialConfig in
  let second := move (Settle 1 (GenerateSettled (Resolved tt))) both in
  let first := move (Settle 0 (GenerateSettled Rejected)) second in
  length (pending both) = 2%nat
  /\ visualizationStates (cells second) !! lit "m2" = Some ready
  /\ visualizationStates (cells first) !! lit "m2" = Some failed.
Proof.
  cbn zeta.
  pose proof (overlapping_generations envBobWrote envBobWrote (lit "m2")
                (lit "hi") (lit "hi") Rejected (Resolved tt)) as H.
  cbn zeta in H.
  destruct H as (_ & _ & _ & Hb & _ & _ & Hs & _ & Hf & _).
  split; [|split].
  - unfold play. cbn [fold_left]. rewrite Hb. reflexivity.
  - exact Hs.
  - exact Hf.
Defined.

Lemma fire_search_input (env : Env) (c : Config) (v : jsstring) :
  fire env (SearchInputChanged v) c
  = mkConfig (apply (SetSearchInput v) (cells c)) (pending c).
Proof. unfold fire. cbn. rewrite app_nil_r. reflexivity. Qed.

Lemma fire_search_enter (env : Env) (c : Config) :
  blank (searchInput (cells c)) = false ->
  fire env (SearchKeyPressed (lit "Enter")) c
  = mkConfig (apply (SetIsSearching true) (cells c))
      (pending c ++ [PendingSearch afterSearch]).
Proof.
  intros Hb. unfold fire. cbn [program]. unfold onSearchKeyPress, JS.eqb.
  rewrite truthy_trim, Hb, bool_decide_eq_true_2 by reflexivity.
  cbn [andb negb]. rewrite (SearchSpec.handleSearch_nonblank _ Hb).
  reflexivity.
Qed.

Lemma search_started (env : Env) (c : Config) (q : jsstring) :
  blank q = false ->
  fire env (SearchKeyPressed (lit "Enter")) (fire env (SearchInputChanged q) c)
  = mkConfig (apply (SetIsSearching true) (apply (SetSearchInput q) (cells c)))
      (pending c ++ [PendingSearch afterSearch]).
Proof.
  intros Hb. rewrite fire_search_input.
  rewrite fire_search_enter by exact Hb. reflexivity.
Qed.

Lemma search_key_call (env : Env) (st : State) :
  blank (searchInput st) = false ->
  snd (prefix (program env st (SearchKeyPressed (lit "Enter"))) st)
  = Some (CalledSearchMessages (searchInput st)).
Proof.
  intros Hb. cbn [program]. unfold onSearchKeyPress, JS.eqb.
  rewrite truthy_trim, Hb, bool_decide_eq_true_2 by reflexivity.
  cbn [andb negb]. rewrite (SearchSpec.handleSearch_nonblank _ Hb).
  reflexivity.
Qed.

(** X28: Two searches for non-blank queries can be in flight together: the
    first Enter calls [searchMessages] with the first query, the second
    with the second, and both continuations are then pending with
    [isSearching] set. When the later search resolves first its results are
    displayed and [isSearching] drops although the earlier search is still
    pending; when the earlier one resolves afterwards its results replace
    them, beside a search box that still shows the later query. *)
Theorem overlapping_searches (env : Env) (q1 q2 : jsstring)
    (res1 res2 : list GroupMessage) :
  blank q1 = false -> blank q2 = false ->
  let typed1 := move (Fire env (SearchInputChanged q1)) initialConfig in
  let one := move (Fire env (SearchKeyPressed (lit "Enter"))) typed1 in
  let typed2 := move (Fire env (SearchInputChanged q2)) one in
  let both := move (Fire env (SearchKeyPressed (lit "Enter"))) typed2 in
  let second := move (Settle 1 (SearchSettled (Resolved res2))) both in
  let first := move (Settle 0 (SearchSettled (Resolved res1))) second in
  snd (prefix (program env (cells typed1) (SearchKeyPressed (lit "Enter")))
         (cells typed1)) = Some (CalledSearchMessages q1)
  /\ pending one = [PendingSearch afterSearch]
  /\ snd (prefix (program env (cells typed2) (SearchKeyPressed (lit "Enter")))
            (cells typed2)) = Some (CalledSearchMessages q2)
  /\ pending both = [PendingSearch afterSearch; PendingSearch afterSearch]
  /\ isSearching (cells both) = true
  /\ showSearchResults (cells both) = false
  /\ pending second = [PendingSearch afterSearch]
  /\ searchResults (cells second) = res2
  /\ showSearchResults (cells second) = true
  /\ isSearching (cells second) = false
  /\ pending first = []
  /\ searchResults (cells first) = res1
  /\ searchInput (cells first) = q2
  /\ showSearchResults (cells first) = true
  /\ isSearching (cells first) = false
  /\ first = play [Fire env (SearchInputChanged q1);
                   Fire env (SearchKeyPressed (lit "Enter"));
                   Fire env (SearchInputChanged q2);
                   Fire env (SearchKeyPressed (lit "Enter"));
                   Settle 1 (SearchSettled (Resolved res2));
                   Settle 0 (SearchSettled (Resolved res1))] initialConfig.
Proof.
  intros H1 H2. cbn zeta. unfold play. cbn [fold_left move].
  rewrite !(search_started env initialConfig q1 H1).
  rewrite !search_started by exact H2.
  rewrite !fire_search_input.
  split; [apply search_key_call; exact H1|].
  split; [reflexivity|].
  split; [apply search_key_call; exact H2|].
  repeat split.
Qed.

Lemma overlapping_searches_witness :
  let both := play [Fire envBobWrote (SearchInputChanged (lit "old"));
                    Fire envBobWrote (SearchKeyPressed (lit "Enter"));
                    Fire envBobWrote (SearchInputChanged (lit "new"));
                    Fire envBobWrote (SearchKeyPressed (lit "Enter"))]
                initialConfig in
  let first :=
    play [Settle 1 (SearchSettled (Resolved []));
          Settle 0 (SearchSettled
                      (Resolved [message "m1" "alice" "hello" None]))] both in
  length (pending both) = 2%nat
  /\ searchResults (cells first) = [message "m1" "alice" "hello" None]
  /\ searchInput (cells first) = lit "new".
Proof.
  cbn zeta.
  pose proof (overlapping_searches envBobWrote (lit "old") (lit "new")
                [message "m1" "alice" "hello" None] [] eq_refl eq_refl) as H.
  cbn zeta in H.
  destruct H as (_ & _ & _ & Hb & _ & _ & _ & _ & _ & _ & _ & Hr & Hi & _).
  split; [|split].
  - unfold play. cbn [fold_left]. rewrite Hb. reflexivity.
  - exact Hr.
  - exact Hi.
Defined.

End EventLoopSpec.

(* ===================================================================== *)
(** ** Instances of the statements above on the sample data *)
(* ===================================================================== *)

Module MoreInstances.
Import GroupChat GroupChatUI EventLoop Samples MoreSamples.

Lemma handleScroll_loads_more_witness :
  In (Did LoadMoreMessages)
     (snd (exec allResolve (handleScroll envAtTop) initial))
  /\ ~ In (Did LoadMoreMessages)
         (snd (exec allResolve (handleScroll envLoadingMore) initial)).
Proof.
  split.
  - apply (proj1 (ScrollMore.handleScroll_loads_more allResolve envAtTop
                    initial)).
    exists farFromBottom. repeat split.
  - intros H.
    apply (proj1 (ScrollMore.handleScroll_loads_more allResolve envLoadingMore
                    initial)) in H.
    destruct H as (c & _ & _ & _ & Hl & _). discriminate.
Defined.

Lemma mountEffect_schedule_witness :
  In (Did (MarkAsSeen (lit "m2")))
     (snd (exec allResolve (mountEffect envBobWrote) initial)).
Proof.
  apply (proj2 (proj2 (ScrollMore.mountEffect_schedule allResolve envBobWrote
                         initial))).
  split; [reflexivity|].
  exists (message "m2" "bob" "hi" None). split; reflexivity.
Defined.

Lemma handleImageUpload_limit_witness :
  handleImageUpload (Some limitFile) = UploadRead limitFile
  /\ handleImageUpload (Some hugeFile) = UploadAlert fileTooLargeText.
Proof.
  split.
  - apply (proj1 (PanelsSpec.handleImageUpload_limit (Some limitFile))).
    split; [reflexivity|]. cbn. lia.
  - apply (proj1 (proj2 (PanelsSpec.handleImageUpload_limit (Some hugeFile)))).
    exists hugeFile. split; [reflexivity|]. cbn. lia.
Defined.

Lemma onSearchKeyPress_searches_witness :
  In (CalledSearchMessages (lit " hi "))
     (snd (exec allResolve
             (onSearchKeyPress (lit "Enter")
                (apply (SetSearchInput (lit " hi ")) initial))
             (apply (SetSearchInput (lit " hi ")) initial))).
Proof.
  apply (PanelsSpec.onSearchKeyPress_searches allResolve
           (apply (SetSearchInput (lit " hi ")) initial)
           (lit "Enter") (lit " hi ")).
  repeat split.
Defined.

End MoreInstances.

(* ===================================================================== *)
(** ** [GroupChat]: from the view request to what is displayed *)
(* ===================================================================== *)

Module ViewResolution.
Import GroupChat GroupChatUI Samples MoreSamples JSFacts ViewSpec.

Lemma persisted_same_messages (env env' : Env) (k : jsstring) :
  messages env' = messages env ->
  persistedVisualization env' k = persistedVisualization env k.
Proof. intros E. unfold persistedVisualization. rewrite E. reflexivity. Qed.

(** The render branch once a non-empty id is current. *)
Lemma surface_of_current (env : Env) (k : jsstring) :
  k <> [] -> currentVisualization env = Some k ->
  visualizationSurface env
  = match (if truthyOpt (persistedVisualization env k)
           then persistedVisualization env k
           else getVisualization env k) with
    | Some c => if truthy c && negb (JS.eqb c generated) then Some c else None
    | None => None
    end.
Proof.
  intros Hk Hc. unfold visualizationSurface. rewrite Hc.
  destruct k as [|x k]; [congruence|]. reflexivity.
Qed.

Lemma shown_unless_placeholder (c : jsstring) :
  c <> [] ->
  (if truthy c && negb (JS.eqb c generated) then Some c else None)
  = (if decide (c = generated) then None else Some c).
Proof.
  intros Hc. destruct c as [|x c]; [congruence|]. cbn [truthy andb].
  unfold JS.eqb. case_bool_decide; case_decide; try contradiction;
    reflexivity.
Qed.

(** C7, as stated, fails. The payload of [m1] is present, and the handler
    asks for it to be shown, yet with [m1] current the render branch opens no
    surface: the payload is the placeholder, which the branch withholds. *)
Lemma view_request_not_what_is_shown :
  persistedPresent envPlaceholderPayload (lit "m1")
  /\ exec allResolve
       (handleViewVisualization envPlaceholderPayload initial (lit "m1") None)
       initial = (initial, [Did (ShowVisualization (lit "m1"))])
  /\ currentVisualization envPlaceholderPayload = Some (lit "m1")
  /\ visualizationSurface envPlaceholderPayload = None.
Proof.
  split; [apply persisted_truthy; reflexivity|]. repeat split.
Qed.

(** C7, amended. [handleViewVisualization] calls [showVisualization] for
    the id when the message carries a payload that is neither null nor
    empty, or else when the local entry has content that is neither null
    nor empty nor the placeholder; otherwise it does nothing. The local
    content decides only that; what is displayed is resolved by the render
    in which the id is current: the payload of the message when it is
    neither null nor empty, and otherwise the content the visualization
    hook holds for the id; the surface opens with that content unless it is
    missing, empty or the placeholder ['generated'], in which case the chat
    view stays. *)
Theorem view_resolution (o : Oracle) (env env' : Env) (st : State)
    (k : jsstring) (visualizationData : option jsstring) :
  k <> [] ->
  messages env' = messages env ->
  currentVisualization env' = Some k ->
  let run := exec o (handleViewVisualization env st k visualizationData) st in
  let payload := persistedVisualization env k in
  let held := getVisualization env' k in
  (persistedPresent env k \/ localPresent st k ->
   run = (st, [Did (ShowVisualization k)]))
  /\ (~ (persistedPresent env k \/ localPresent st k) -> run = (st, []))
  /\ (forall d, payload = Some d -> d <> [] -> d <> generated ->
      persistedPresent env k /\ visualizationSurface env' = Some d)
  /\ (payload = Some generated ->
      persistedPresent env k /\ visualizationSurface env' = None)
  /\ (~ persistedPresent env k ->
      forall h, held = Some h -> h <> [] -> h <> generated ->
      visualizationSurface env' = Some h)
  /\ (~ persistedPresent env k ->
      held = None \/ held = Some [] \/ held = Some generated ->
      visualizationSurface env' = None).
Proof.
  intros Hk Hm Hc. cbn zeta.
  rewrite (surface_of_current env' k Hk Hc), (persisted_same_messages _ _ k Hm).
  pose proof (persisted_truthy env k) as Hp.
  pose proof (local_usable st k) as Hq.
  split; [|split; [|split; [|split; [|split]]]].
  - unfold handleViewVisualization.
    destruct (truthyOpt (persistedVisualization env k));
      destruct (localVisualizationUsable st k); intros H; try reflexivity.
    exfalso. intuition congruence.
  - unfold handleViewVisualization.
    destruct (truthyOpt (persistedVisualization env k));
      destruct (localVisualizationUsable st k); intros H; try reflexivity;
      exfalso; intuition congruence.
  - intros d Hd Hne Hg. rewrite Hd in *.
    assert (Ht : truthyOpt (Some d) = true)
      by (destruct d; [congruence | reflexivity]).
    rewrite Ht. split; [apply Hp; exact Ht|].
    rewrite shown_unless_placeholder by exact Hne.
    case_decide; [contradiction | reflexivity].
  - intros Hd. rewrite Hd in *.
    split; [apply Hp; reflexivity|]. reflexivity.
  - intros Hn h Hh Hne Hg.
    destruct (truthyOpt (persistedVisualization env k));
      [exfalso; apply Hn, Hp; reflexivity|].
    rewrite Hh. rewrite shown_unless_placeholder by exact Hne.
    case_decide; [contradiction | reflexivity].
  - intros Hn Hh.
    destruct (truthyOpt (persistedVisualization env k));
      [exfalso; apply Hn, Hp; reflexivity|].
    destruct Hh as [->|[->| ->]]; reflexivity.
Qed.

Lemma view_resolution_witness :
  exec allResolve
    (handleViewVisualization envPersisted initial (lit "m1") None) initial
  = (initial, [Did (ShowVisualization (lit "m1"))])
  /\ visualizationSurface envViewing = Some (lit "<html>chart</html>")
  /\ visualizationSurface envPlaceholderPayload = None
  /\ visualizationSurface envHookOnly = Some (lit "<p>hook</p>")
  /\ exec allResolve
       (handleViewVisualization envHookOnly initial (lit "m2") None) initial
     = (initial, []).
Proof.
  assert (Hk1 : lit "m1" <> []) by discriminate.
  assert (Hk2 : lit "m2" <> []) by discriminate.
  assert (Hno : ~ persistedPresent envHookOnly (lit "m2")).
  { intros H. apply persisted_truthy in H. discriminate. }
  pose proof (view_resolution allResolve envPersisted envViewing initial
                (lit "m1") None Hk1 eq_refl eq_refl) as H1.
  pose proof (view_resolution allResolve envPlaceholderPayload
                envPlaceholderPayload initial (lit "m1") None Hk1 eq_refl
                eq_refl) as H2.
  pose proof (view_resolution allResolve envHookOnly envHookOnly initial
                (lit "m2") None Hk2 eq_refl eq_refl) as H3.
  cbn zeta in H1, H2, H3.
  destruct H1 as (H1a & _ & H1c & _).
  destruct H2 as (_ & _ & _ & H2d & _).
  destruct H3 as (_ & H3b & _ & _ & H3e & _).
  split; [|split; [|split; [|split]]].
  - apply H1a. left. apply persisted_truthy. reflexivity.
  - apply (H1c (lit "<html>chart</html>") eq_refl); discriminate.
  - apply (H2d eq_refl).
  - apply (H3e Hno (lit "<p>hook</p>") eq_refl); discriminate.
  - apply H3b. intros [H|H]; [exact (Hno H)|].
    apply local_usable in H. vm_compute in H. discriminate.
Defined.

End ViewResolution.
